(** * Synology WebAPI client: session negotiation and DNS record encoding

    A shallow embedding of [src/auth/synology_auth.py] (class [SynologyAuth])
    and [src/dnsserver/synology_dnsserver.py] (class [SynologyDNSServer]),
    together with the properties the design document states about them.

    Conventions of the embedding:
    - a Python [str] is a Rocq [string]; each [ascii] stands for the code
      point of the same number (0..255);
    - the values a response can carry are those [json.loads] produces,
      type [pyval]; numbers are integers (every numeric field of the remote
      API is an integer code), non-integer numbers are not modelled;
    - a Python [dict] is an association list in insertion order;
    - code that can raise lives in the [result] monad; [try]/[except] is a
      match on the result;
    - the HTTP library is the parameter [net], a function from the request
      to what [requests.get]/[requests.post] does with it.  Every method
      below sends each request at most once per call, so a function of the
      request describes any behaviour of the remote side during one call;
    - every method returns, next to its value, the list of requests sent. *)

From Stdlib Require Import String Ascii List ZArith Bool.
From Stdlib Require Import DecimalString DecimalPos DecimalZ.
Import ListNotations.
Open Scope string_scope.
Open Scope Z_scope.
Set Warnings "-register-all".

(* ===================================================================== *)
(** ** Strings *)
(* ===================================================================== *)

Module Str.

Definition chr (c : ascii) : string := String c EmptyString.

(** The characters the source writes as escapes or delimiters. *)
Definition dquote : string := chr "034"%char.
Definition squote : string := chr "039"%char.
Definition bslash : string := chr "092"%char.
Definition tab : string := chr "009"%char.

(** [s.endswith(suffix)] *)
Fixpoint endswith (s suffix : string) : bool :=
  String.eqb s suffix ||
  match s with
  | EmptyString => false
  | String _ s' => endswith s' suffix
  end.

(** [s.rstrip(c)] for a single character [c]. *)
Fixpoint rstrip (c : ascii) (s : string) : string :=
  match s with
  | EmptyString => EmptyString
  | String a s' =>
      match rstrip c s' with
      | EmptyString => if Ascii.eqb a c then EmptyString else chr a
      | r => String a r
      end
  end.

(** [sep.join(parts)] *)
Fixpoint join (sep : string) (parts : list string) : string :=
  match parts with
  | [] => EmptyString
  | [p] => p
  | p :: rest => p ++ sep ++ join sep rest
  end.

(** [c in s] for a character [c]. *)
Fixpoint contains (c : ascii) (s : string) : bool :=
  match s with
  | EmptyString => false
  | String a s' => Ascii.eqb a c || contains c s'
  end.

(** [s.split(c)] for a single character [c]. *)
Fixpoint split (c : ascii) (s : string) : list string :=
  match s with
  | EmptyString => [EmptyString]
  | String a s' =>
      if Ascii.eqb a c then EmptyString :: split c s'
      else match split c s' with
           | [] => [chr a]
           | p :: ps => String a p :: ps
           end
  end.

(** [f'"{s}"'] : the text between two literal quote characters. *)
Definition quoted (s : string) : string := dquote ++ s ++ dquote.

(** [str(n)] for an [int]. *)
Definition of_Z (n : Z) : string := NilZero.string_of_int (Z.to_int n).

Definition hex_digit (n : N) : string :=
  chr (match n with
       | 0 => "0" | 1 => "1" | 2 => "2" | 3 => "3" | 4 => "4" | 5 => "5"
       | 6 => "6" | 7 => "7" | 8 => "8" | 9 => "9" | 10 => "a" | 11 => "b"
       | 12 => "c" | 13 => "d" | 14 => "e" | _ => "f"
       end%N%char).

(** Two lower-case hexadecimal digits of a code point below 256. *)
Definition hex2 (c : ascii) : string :=
  let n := N_of_ascii c in
  hex_digit (N.div n 16) ++ hex_digit (N.modulo n 16).

Definition flat_map_chars (f : ascii -> string) : string -> string :=
  fix go (s : string) : string :=
    match s with
    | EmptyString => EmptyString
    | String a s' => f a ++ go s'
    end.

End Str.

(* ===================================================================== *)
(** ** Python values, exceptions and the [result] monad *)
(* ===================================================================== *)

(** What [json.loads] returns, and what the client stores and sends. *)
Inductive pyval : Type :=
| PNone
| PBool (b : bool)
| PInt (n : Z)
| PStr (s : string)
| PList (xs : list pyval)
| PDict (kvs : list (string * pyval)).

(** The exception classes the two modules raise, catch or let through.
    [RequestException] stands for [requests.RequestException] and its
    subclasses ([HTTPError], [ConnectionError], ...). *)
Inductive exn_class : Type :=
| RequestException
| AttributeError
| KeyError
| TypeError
| ValueError
| Exception.

(** An exception object: its class and [str(e)]. *)
Inductive exn : Type :=
| Exn (cls : exn_class) (msg : string).

Definition exn_cls (e : exn) : exn_class := let 'Exn c _ := e in c.
Definition exn_str (e : exn) : string := let 'Exn _ m := e in m.

(** [isinstance(e, requests.RequestException)] *)
Definition is_request_exception (e : exn) : bool :=
  match exn_cls e with
  | RequestException => true
  | _ => false
  end.

Inductive result (A : Type) : Type :=
| Ok (a : A)
| Raise (e : exn).
Arguments Ok {A} a.
Arguments Raise {A} e.

Definition bind {A B : Type} (c : result A) (k : A -> result B) : result B :=
  match c with
  | Ok a => k a
  | Raise e => Raise e
  end.

Declare Scope py_scope.
Delimit Scope py_scope with py.
Notation "x <- c ;; k" := (bind c (fun x => k))
  (at level 100, c at next level, right associativity) : py_scope.
Notation "c ;;; k" := (bind c (fun _ => k))
  (at level 100, right associativity) : py_scope.
Open Scope py_scope.

Module Py.

(** Dictionaries as association lists, in insertion order. *)
Fixpoint dict_get {A : Type} (k : string) (d : list (string * A)) : option A :=
  match d with
  | [] => None
  | (k', v) :: d' => if String.eqb k' k then Some v else dict_get k d'
  end.

(** [d[k] = v] : replace in place, or append. *)
Fixpoint dict_set {A : Type} (k : string) (v : A) (d : list (string * A))
  : list (string * A) :=
  match d with
  | [] => [(k, v)]
  | (k', v') :: d' =>
      if String.eqb k' k then (k', v) :: d' else (k', v') :: dict_set k v d'
  end.

(** [{**d, **extra}] *)
Definition dict_update {A : Type} (d extra : list (string * A))
  : list (string * A) :=
  fold_left (fun acc kv => dict_set (fst kv) (snd kv) acc) extra d.

(** [bool(v)] *)
Definition truthy (v : pyval) : bool :=
  match v with
  | PNone => false
  | PBool b => b
  | PInt n => negb (n =? 0)
  | PStr s => negb (String.eqb s EmptyString)
  | PList xs => match xs with [] => false | _ => true end
  | PDict kvs => match kvs with [] => false | _ => true end
  end.

(** [a or b] *)
Definition or_ (a b : pyval) : pyval := if truthy a then a else b.

(** [a == b].  [True == 1] and [False == 0] hold; dictionaries compare
    without regard to order. *)
Fixpoint eq (a b : pyval) {struct a} : bool :=
  match a, b with
  | PNone, PNone => true
  | PBool x, PBool y => Bool.eqb x y
  | PBool x, PInt n => Z.b2z x =? n
  | PInt n, PBool y => n =? Z.b2z y
  | PInt m, PInt n => m =? n
  | PStr s, PStr t => String.eqb s t
  | PList xs, PList ys =>
      (fix go (xs ys : list pyval) {struct xs} : bool :=
         match xs, ys with
         | [], [] => true
         | x :: xs', y :: ys' => eq x y && go xs' ys'
         | _, _ => false
         end) xs ys
  | PDict kvs, PDict kvs' =>
      Nat.eqb (length kvs) (length kvs') &&
      (fix go (kvs : list (string * pyval)) : bool :=
         match kvs with
         | [] => true
         | (k, v) :: rest =>
             match dict_get k kvs' with
             | Some v' => eq v v'
             | None => false
             end && go rest
         end) kvs
  | _, _ => false
  end.

(** An optional [str] argument ([None] when omitted) as a Python value. *)
Definition of_opt (o : option string) : pyval :=
  match o with
  | Some s => PStr s
  | None => PNone
  end.

(** [o or default] where [o] is an optional [str] and [default] a [str]. *)
Definition or_str (o : option string) (default : string) : string :=
  match o with
  | Some s => if String.eqb s EmptyString then default else s
  | None => default
  end.

(** [x in xs] for a list [xs]. *)
Definition in_ (x : pyval) (xs : list pyval) : bool :=
  existsb (fun y => eq x y) xs.

(** [type(v).__name__] *)
Definition type_name (v : pyval) : string :=
  match v with
  | PNone => "NoneType"
  | PBool _ => "bool"
  | PInt _ => "int"
  | PStr _ => "str"
  | PList _ => "list"
  | PDict _ => "dict"
  end.

(** [repr(s)] for a [str]: single quotes unless the text has a single and
    no double quote; backslash, the chosen quote, tab, newline and return
    escaped; other non-printable characters as [\xNN]. *)
Definition printable (c : ascii) : bool :=
  let n := N_of_ascii c in
  ((32 <=? n) && (n <=? 126) || (161 <=? n) && negb (n =? 173))%N.

Definition repr_char (q : ascii) (c : ascii) : string :=
  if Ascii.eqb c "092" then Str.bslash ++ Str.bslash
  else if Ascii.eqb c q then Str.bslash ++ Str.chr q
  else if Ascii.eqb c "009" then Str.bslash ++ "t"
  else if Ascii.eqb c "010" then Str.bslash ++ "n"
  else if Ascii.eqb c "013" then Str.bslash ++ "r"
  else if printable c then Str.chr c
  else Str.bslash ++ "x" ++ Str.hex2 c.

Definition repr_str (s : string) : string :=
  let q := if Str.contains "039" s && negb (Str.contains "034" s)
           then "034"%char else "039"%char in
  Str.chr q ++ Str.flat_map_chars (repr_char q) s ++ Str.chr q.

(** [repr(v)] *)
Fixpoint repr (v : pyval) : string :=
  match v with
  | PNone => "None"
  | PBool true => "True"
  | PBool false => "False"
  | PInt n => Str.of_Z n
  | PStr s => repr_str s
  | PList xs => "[" ++ Str.join ", " (map repr xs) ++ "]"
  | PDict kvs =>
      "{" ++ Str.join ", "
               (map (fun kv => repr_str (fst kv) ++ ": " ++ repr (snd kv)) kvs)
          ++ "}"
  end.

(** [str(v)], which is what an f-string field [{v}] inserts. *)
Definition str (v : pyval) : string :=
  match v with
  | PStr s => s
  | _ => repr v
  end.

(** [v.get(k, default)] : only a [dict] has the method. *)
Definition get (v : pyval) (k : string) (default : pyval) : result pyval :=
  match v with
  | PDict kvs =>
      Ok (match dict_get k kvs with Some x => x | None => default end)
  | _ =>
      Raise (Exn AttributeError
               (Str.squote ++ type_name v ++ Str.squote
                ++ " object has no attribute 'get'"))
  end.

(** [v[k]] for a string key [k]. *)
Definition getitem (v : pyval) (k : string) : result pyval :=
  match v with
  | PDict kvs =>
      match dict_get k kvs with
      | Some x => Ok x
      | None => Raise (Exn KeyError (repr_str k))
      end
  | PList _ =>
      Raise (Exn TypeError "list indices must be integers or slices, not str")
  | PStr _ =>
      Raise (Exn TypeError "string indices must be integers, not 'str'")
  | _ =>
      Raise (Exn TypeError
               (Str.squote ++ type_name v ++ Str.squote
                ++ " object is not subscriptable"))
  end.

(** [list(v)]: what a [for] or a comprehension walks through.  A [str]
    yields its characters, a [dict] its keys. *)
Definition iter (v : pyval) : result (list pyval) :=
  match v with
  | PList xs => Ok xs
  | PStr s => Ok (map (fun c => PStr (Str.chr c)) (list_ascii_of_string s))
  | PDict kvs => Ok (map (fun kv => PStr (fst kv)) kvs)
  | _ =>
      Raise (Exn TypeError
               (Str.squote ++ type_name v ++ Str.squote
                ++ " object is not iterable"))
  end.

(** [[f(x) for x in xs]] where [f] can raise: the first exception ends
    the comprehension. *)
Fixpoint traverse {A B : Type} (f : A -> result B) (xs : list A)
  : result (list B) :=
  match xs with
  | [] => Ok []
  | x :: xs' =>
      y <- f x ;;
      ys <- traverse f xs' ;;
      Ok (y :: ys)
  end.

(** The items of [sep.join(xs)] as texts: the first item that is not a
    [str] raises, naming its position [i]. *)
Fixpoint join_items (i : nat) (xs : list pyval) : result (list string) :=
  match xs with
  | [] => Ok []
  | PStr s :: xs' =>
      rest <- join_items (S i) xs' ;;
      Ok (s :: rest)
  | v :: _ =>
      Raise (Exn TypeError
               ("sequence item " ++ Str.of_Z (Z.of_nat i)
                ++ ": expected str instance, " ++ type_name v ++ " found"))
  end.

(** [sep.join(xs)] for a list [xs]. *)
Definition join (sep : string) (xs : list pyval) : result pyval :=
  items <- join_items 0 xs ;;
  Ok (PStr (Str.join sep items)).

End Py.

(* ===================================================================== *)
(** ** JSON text: [json.dumps] with its default settings *)
(* ===================================================================== *)

Module Json.

(** [json.encoder.py_encode_basestring_ascii]: quote and backslash are
    escaped, the five short escapes are used, every other character outside
    space..tilde becomes [\u00xx]. *)
Definition escape_char (c : ascii) : string :=
  if Ascii.eqb c "034" then Str.bslash ++ Str.dquote
  else if Ascii.eqb c "092" then Str.bslash ++ Str.bslash
  else if Ascii.eqb c "010" then Str.bslash ++ "n"
  else if Ascii.eqb c "013" then Str.bslash ++ "r"
  else if Ascii.eqb c "009" then Str.bslash ++ "t"
  else if Ascii.eqb c "012" then Str.bslash ++ "f"
  else if Ascii.eqb c "008" then Str.bslash ++ "b"
  else if ((32 <=? N_of_ascii c) && (N_of_ascii c <=? 126))%N then Str.chr c
  else Str.bslash ++ "u00" ++ Str.hex2 c.

Definition encode_str (s : string) : string :=
  Str.dquote ++ Str.flat_map_chars escape_char s ++ Str.dquote.

(** [json.dumps(v)] : items separated by [", "], keys by [": "]. *)
Fixpoint dumps (v : pyval) : string :=
  match v with
  | PNone => "null"
  | PBool true => "true"
  | PBool false => "false"
  | PInt n => Str.of_Z n
  | PStr s => encode_str s
  | PList xs => "[" ++ Str.join ", " (map dumps xs) ++ "]"
  | PDict kvs =>
      "{" ++ Str.join ", "
               (map (fun kv => encode_str (fst kv) ++ ": " ++ dumps (snd kv)) kvs)
          ++ "}"
  end.

(** The value of a lower-case hexadecimal digit. *)
Definition hex_value (c : ascii) : option N :=
  let n := N_of_ascii c in
  if ((48 <=? n) && (n <=? 57))%N then Some (n - 48)%N
  else if ((97 <=? n) && (n <=? 102))%N then Some (n - 87)%N
  else None.

Definition cons_char (c : ascii) (r : option (string * string))
  : option (string * string) :=
  match r with
  | Some (s, rest) => Some (String c s, rest)
  | None => None
  end.

(** Reading back what [encode_str] writes after its opening quote: the
    text up to the closing quote with the escapes undone, and what follows
    the closing quote.  It is the part of a JSON reader that [dumps] needs
    to be undone, and serves to state that the encoding loses nothing. *)
Fixpoint read_string (t : string) : option (string * string) :=
  match t with
  | EmptyString => None
  | String c t1 =>
      if Ascii.eqb c "034" then Some (EmptyString, t1)
      else if Ascii.eqb c "092" then
        match t1 with
        | EmptyString => None
        | String e t2 =>
            if Ascii.eqb e "034" then cons_char "034" (read_string t2)
            else if Ascii.eqb e "092" then cons_char "092" (read_string t2)
            else if Ascii.eqb e "n" then cons_char "010" (read_string t2)
            else if Ascii.eqb e "r" then cons_char "013" (read_string t2)
            else if Ascii.eqb e "t" then cons_char "009" (read_string t2)
            else if Ascii.eqb e "f" then cons_char "012" (read_string t2)
            else if Ascii.eqb e "b" then cons_char "008" (read_string t2)
            else if Ascii.eqb e "u" then
              match t2 with
              | String z1 (String z2 (String h (String l t3))) =>
                  if Ascii.eqb z1 "0" && Ascii.eqb z2 "0" then
                    match hex_value h, hex_value l with
                    | Some hi, Some lo =>
                        cons_char (ascii_of_N (16 * hi + lo)) (read_string t3)
                    | _, _ => None
                    end
                  else None
              | _ => None
              end
            else None
        end
      else cons_char c (read_string t1)
  end.

End Json.

(* ===================================================================== *)
(** ** The HTTP boundary *)
(* ===================================================================== *)

Inductive verb : Type :=
| GET   (* requests.get(url, params=...) *)
| POST. (* requests.post(url, data=...)  *)

Record request : Type := mkRequest {
  req_verb : verb;
  req_url : string;
  req_params : list (string * pyval)
}.

(** A response object: the status line, the text [raise_for_status] puts
    in its [HTTPError], and what [response.json()] does. *)
Record response : Type := mkResponse {
  status_code : Z;
  http_error_text : string;
  json : result pyval
}.

(** What [requests.get] / [requests.post] does with a request: return a
    response or raise. *)
Definition network : Type := request -> result response.

(** [response.raise_for_status()] *)
Definition raise_for_status (r : response) : result unit :=
  if (400 <=? status_code r) && (status_code r <? 600)
  then Raise (Exn RequestException (http_error_text r))
  else Ok tt.

(** The three lines every call site repeats:
    [response = requests.<verb>(...); response.raise_for_status();
     response.json()]. *)
Definition fetch_json (net : network) (req : request) : result pyval :=
  response <- net req ;;
  raise_for_status response ;;;
  json response.

(* ===================================================================== *)
(** ** [SynologyAuth] *)
(* ===================================================================== *)

Module SynologyAuth.

(** The instance attributes. [current_session_id] holds [None] or whatever
    the login response carried at [data.sid]. *)
Record t : Type := mk {
  base_url : string;
  current_session_id : pyval;
  current_session_type : string
}.

(** [__init__] *)
Definition init (url : string) : t :=
  {| base_url := Str.rstrip "/" url;
     current_session_id := PNone;
     current_session_type := "FileStation" |}.

Definition auth_url (self : t) : string := base_url self ++ "/webapi/auth.cgi".

(** The candidate versions, as both loops spell them. *)
Definition api_versions : list string := ["7"; "6"; "3"; "2"].

(** What leaving one pass of a [for] body can mean. *)
Inductive flow (R : Type) : Type :=
| Return (r : R)      (* return r *)
| Break (last : pyval)  (* break, with the value of last_error *)
| Next (last : pyval).  (* fall off the end of the body *)
Arguments Return {R} r.
Arguments Break {R} last.
Arguments Next {R} last.

(** *** login_with_session *)

Definition login_payload (username password session_type version : string)
  : list (string * pyval) :=
  [ ("api", PStr "SYNO.API.Auth");
    ("version", PStr version);
    ("method", PStr "login");
    ("account", PStr username);
    ("passwd", PStr password);
    ("session", PStr session_type);
    ("format", PStr "sid") ].

Definition login_request (self : t) (username password session_type version : string)
  : request :=
  {| req_verb := GET;
     req_url := auth_url self;
     req_params := login_payload username password session_type version |}.

Definition login_auth_errors : list pyval :=
  [PInt 400; PInt 402; PInt 403; PInt 404].

(** The body of the [try] for one version.  The loop keeps no variable
    from one pass to the next, so [Next] carries [None]. *)
Definition login_try (net : network) (self : t)
    (username password session_type version : string)
  : result (flow (pyval * t)) :=
  result <- fetch_json net (login_request self username password session_type version) ;;
  success <- Py.get result "success" PNone ;;
  if Py.truthy success then
    data <- Py.getitem result "data" ;;
    sid <- Py.getitem data "sid" ;;
    Ok (Return (result,
                {| base_url := base_url self;
                   current_session_id := sid;
                   current_session_type := session_type |}))
  else
    error <- Py.get result "error" (PDict []) ;;
    error_code <- Py.get error "code" (PStr "unknown") ;;
    if Py.in_ error_code login_auth_errors
    then Ok (Return (result, self))
    else Ok (Next PNone).

Definition login_failed : pyval :=
  PDict [ ("success", PBool false);
          ("error", PDict [ ("code", PStr "unknown");
                            ("message", PStr "Authentication failed") ]) ].

(** The [for version in api_versions] loop and the statement after it.
    [except Exception: continue] catches everything the body raises. *)
Fixpoint login_loop (net : network) (self : t)
    (username password session_type : string)
    (versions : list string) (sent : list request)
  : pyval * t * list request :=
  match versions with
  | [] => (login_failed, self, sent)
  | version :: rest =>
      let sent' :=
        (sent ++ [login_request self username password session_type version])%list in
      match login_try net self username password session_type version with
      | Ok (Return (result, self')) => (result, self', sent')
      | Ok (Break _) | Ok (Next _) | Raise _ =>
          login_loop net self username password session_type rest sent'
      end
  end.

Definition login_with_session (net : network) (self : t)
    (username password session_type : string)
  : pyval * t * list request :=
  login_loop net self username password session_type api_versions [].

Definition login (net : network) (self : t) (username password : string) :=
  login_with_session net self username password "FileStation".

Definition login_download_station (net : network) (self : t)
    (username password : string) :=
  login_with_session net self username password "DownloadStation".

Definition login_dns_server (net : network) (self : t)
    (username password : string) :=
  login_with_session net self username password "DNSServer".

(** *** logout *)

Definition logout_payload (logout_session_type : string)
    (logout_session_id : pyval) (version : string)
  : list (string * pyval) :=
  [ ("api", PStr "SYNO.API.Auth");
    ("version", PStr version);
    ("method", PStr "logout");
    ("session", PStr logout_session_type);
    ("_sid", logout_session_id) ].

Definition logout_request (self : t) (logout_session_type : string)
    (logout_session_id : pyval) (version : string) : request :=
  {| req_verb := GET;
     req_url := auth_url self;
     req_params := logout_payload logout_session_type logout_session_id version |}.

Definition logout_session_errors : list pyval := [PInt 105; PInt 106].

Definition error_result (code message : string) : pyval :=
  PDict [ ("success", PBool false);
          ("error", PDict [ ("code", PStr code); ("message", PStr message) ]) ].

Definition no_session : pyval :=
  error_result "no_session" "No session ID provided or available".

Definition all_versions_failed : pyval :=
  error_result "all_versions_failed" "Logout failed with all API versions".

(** The two [except] clauses: what [last_error] becomes. *)
Definition logout_except (e : exn) : pyval :=
  if is_request_exception e
  then error_result "network_error" ("Network error: " ++ exn_str e)
  else error_result "unknown_error" ("Unexpected error: " ++ exn_str e).

(** The body of the [try] for one version. *)
Definition logout_try (net : network) (self : t)
    (logout_session_type : string) (logout_session_id : pyval)
    (version : string)
  : result (flow (pyval * t)) :=
  result <- fetch_json net
              (logout_request self logout_session_type logout_session_id version) ;;
  success <- Py.get result "success" PNone ;;
  if Py.truthy success then
    if Py.eq logout_session_id (current_session_id self)
    then Ok (Return (result,
                     {| base_url := base_url self;
                        current_session_id := PNone;
                        current_session_type := "FileStation" |}))
    else Ok (Return (result, self))
  else
    let last_error := result in
    error <- Py.get result "error" (PDict []) ;;
    error_code <- Py.get error "code" (PStr "unknown") ;;
    if Py.in_ error_code logout_session_errors
    then Ok (Break last_error)
    else Ok (Next last_error).

(** The statements after the loop. *)
Definition logout_finish (last_error : pyval) : pyval :=
  if Py.truthy last_error then last_error else all_versions_failed.

Fixpoint logout_loop (net : network) (self : t)
    (logout_session_type : string) (logout_session_id : pyval)
    (versions : list string) (last_error : pyval) (sent : list request)
  : pyval * t * list request :=
  match versions with
  | [] => (logout_finish last_error, self, sent)
  | version :: rest =>
      let sent' :=
        (sent ++ [logout_request self logout_session_type logout_session_id version])%list in
      match logout_try net self logout_session_type logout_session_id version with
      | Ok (Return (result, self')) => (result, self', sent')
      | Ok (Break last_error') => (logout_finish last_error', self, sent')
      | Ok (Next last_error') =>
          logout_loop net self logout_session_type logout_session_id
                      rest last_error' sent'
      | Raise e =>
          logout_loop net self logout_session_type logout_session_id
                      rest (logout_except e) sent'
      end
  end.

Definition logout (net : network) (self : t)
    (session_id session_type : option string)
  : pyval * t * list request :=
  let logout_session_id := Py.or_ (Py.of_opt session_id) (current_session_id self) in
  let logout_session_type := Py.or_str session_type (current_session_type self) in
  if negb (Py.truthy logout_session_id) then (no_session, self, [])
  else logout_loop net self logout_session_type logout_session_id
                   api_versions PNone [].

(** [is_logged_in] *)
Definition is_logged_in (self : t) : bool :=
  match current_session_id self with
  | PNone => false
  | _ => true
  end.

(** [get_session_info] *)
Definition get_session_info (self : t) : pyval :=
  PDict [ ("session_id", current_session_id self);
          ("session_type", PStr (current_session_type self));
          ("logged_in", PBool (is_logged_in self)) ].

End SynologyAuth.

(* ===================================================================== *)
(** ** [SynologyDNSServer] *)
(* ===================================================================== *)

Module SynologyDNSServer.

Record t : Type := mk {
  base_url : string;
  session_id : string;
  api_url : string
}.

(** [__init__] *)
Definition init (url sid : string) : t :=
  {| base_url := Str.rstrip "/" url;
     session_id := sid;
     api_url := Str.rstrip "/" url ++ "/webapi/entry.cgi" |}.

(** The four entries [_make_request] puts before the caller's. *)
Definition envelope (self : t) (api version method : string)
  : list (string * pyval) :=
  [ ("api", PStr api);
    ("version", PStr version);
    ("method", PStr method);
    ("_sid", PStr (session_id self)) ].

Definition request_of (self : t) (api version method : string)
    (use_post : bool) (params : list (string * pyval)) : request :=
  {| req_verb := if use_post then POST else GET;
     req_url := api_url self;
     req_params := Py.dict_update (envelope self api version method) params |}.

(** [_make_request]: the value returned or the exception raised, and the
    one request sent. *)
Definition _make_request (net : network) (self : t)
    (api version method : string) (use_post : bool)
    (params : list (string * pyval))
  : result pyval * list request :=
  let req := request_of self api version method use_post params in
  (data <- fetch_json net req ;;
   success <- Py.get data "success" PNone ;;
   if negb (Py.truthy success) then
     error <- Py.get data "error" (PDict []) ;;
     error_code <- Py.get error "code" (PStr "unknown") ;;
     error_info <- Py.get data "error" (PDict []) ;;
     Raise (Exn Exception
              ("DNS Server API error: " ++ Py.str error_code
               ++ " - " ++ Py.str error_info))
   else
     Py.get data "data" (PDict []),
   [req]).

(** *** Record management *)

Definition record_api : string := "SYNO.DNSServer.Zone.Record".

(** [create_record]; [ttl] is 86400 when the caller omits it. *)
Definition create_record (net : network) (self : t)
    (zone_name name record_type rdata : string) (ttl : Z)
  : result pyval * list request :=
  let rr_owner :=
    if negb (Str.endswith name ".") then
      if String.eqb name "@"
      then Str.dquote ++ zone_name ++ "." ++ Str.dquote
      else Str.dquote ++ name ++ "." ++ zone_name ++ "." ++ Str.dquote
    else Str.dquote ++ name ++ Str.dquote in
  _make_request net self record_api "1" "create" true
    [ ("zone_name", PStr (Str.dquote ++ zone_name ++ Str.dquote));
      ("domain_name", PStr (Str.dquote ++ zone_name ++ Str.dquote));
      ("rr_owner", PStr rr_owner);
      ("rr_type", PStr (Str.dquote ++ record_type ++ Str.dquote));
      ("rr_info", PStr (Str.dquote ++ rdata ++ Str.dquote));
      ("rr_ttl", PStr (Str.dquote ++ Str.of_Z ttl ++ Str.dquote)) ].

Definition create_record_default_ttl : Z := 86400.

(** The [params] dictionary [update_record] builds. *)
Definition update_record_params
    (zone_name record_key : string)
    (name record_type rdata : option string) (ttl : option Z)
  : list (string * pyval) :=
  let params :=
    [ ("zone_name", PStr (Str.dquote ++ zone_name ++ Str.dquote));
      ("domain_name", PStr (Str.dquote ++ zone_name ++ Str.dquote));
      ("record_key", PStr (Str.dquote ++ record_key ++ Str.dquote)) ] in
  let params :=
    match name with
    | Some name =>
        if negb (Str.endswith name ".") then
          if String.eqb name "@"
          then Py.dict_set "rr_owner"
                 (PStr (Str.dquote ++ zone_name ++ "." ++ Str.dquote)) params
          else Py.dict_set "rr_owner"
                 (PStr (Str.dquote ++ name ++ "." ++ zone_name ++ "." ++ Str.dquote))
                 params
        else Py.dict_set "rr_owner" (PStr (Str.dquote ++ name ++ Str.dquote)) params
    | None => params
    end in
  let params :=
    match record_type with
    | Some record_type =>
        Py.dict_set "rr_type" (PStr (Str.dquote ++ record_type ++ Str.dquote)) params
    | None => params
    end in
  let params :=
    match rdata with
    | Some rdata =>
        Py.dict_set "rr_info" (PStr (Str.dquote ++ rdata ++ Str.dquote)) params
    | None => params
    end in
  match ttl with
  | Some ttl =>
      Py.dict_set "rr_ttl" (PStr (Str.dquote ++ Str.of_Z ttl ++ Str.dquote)) params
  | None => params
  end.

Definition update_record (net : network) (self : t)
    (zone_name record_key : string)
    (name record_type rdata : option string) (ttl : option Z)
  : result pyval * list request :=
  _make_request net self record_api "1" "set" true
    (update_record_params zone_name record_key name record_type rdata ttl).

(** The local [full_record] of [delete_record]. *)
Definition full_record (rr_owner rr_type rr_info : string)
    (rr_ttl : option string) : string :=
  rr_owner ++ Str.tab ++ Py.or_str rr_ttl "86400" ++ Str.tab
  ++ rr_type ++ Str.tab ++ rr_info.

(** The local [items] of [delete_record]. *)
Definition items (zone_name rr_owner rr_type rr_info : string)
    (rr_ttl : option string) : pyval :=
  PList [ PDict [ ("zone_name", PStr zone_name);
                  ("domain_name", PStr zone_name);
                  ("rr_owner", PStr rr_owner);
                  ("rr_type", PStr rr_type);
                  ("rr_ttl", PStr (Py.or_str rr_ttl "86400"));
                  ("rr_info", PStr rr_info);
                  ("full_record",
                   PStr (full_record rr_owner rr_type rr_info rr_ttl)) ] ].

(** [delete_record]; [rr_ttl] is [None] when the caller omits it. *)
Definition delete_record (net : network) (self : t)
    (zone_name rr_owner rr_type rr_info : string) (rr_ttl : option string)
  : result pyval * list request :=
  _make_request net self record_api "1" "delete" true
    [ ("items",
       PStr (Json.dumps (items zone_name rr_owner rr_type rr_info rr_ttl))) ].

(** *** Zone management *)

Definition zone_api : string := "SYNO.DNSServer.Zone".

(** The dictionary display of [list_zones] for one [zone]. *)
Definition zone_view (zone : pyval) : result pyval :=
  zone_name <- Py.get zone "zone_name" PNone ;;
  domain_name <- Py.get zone "domain_name" PNone ;;
  zone_type <- Py.get zone "zone_type" PNone ;;
  domain_type <- Py.get zone "domain_type" PNone ;;
  zone_enable <- Py.get zone "zone_enable" PNone ;;
  is_readonly <- Py.get zone "is_readonly" (PBool false) ;;
  Ok (PDict [ ("zone_name", zone_name);
              ("domain_name", domain_name);
              ("zone_type", zone_type);
              ("domain_type", domain_type);
              ("zone_enable", zone_enable);
              ("is_readonly", is_readonly) ]).

(** [data.get('items', [])] followed by the comprehension over it. *)
Definition project_items (view : pyval -> result pyval) (data : pyval)
  : result pyval :=
  items <- Py.get data "items" (PList []) ;;
  walked <- Py.iter items ;;
  views <- Py.traverse view walked ;;
  Ok (PList views).

(** [list_zones] *)
Definition list_zones (net : network) (self : t)
  : result pyval * list request :=
  let call := _make_request net self zone_api "1" "list" false [] in
  (data <- fst call ;; project_items zone_view data, snd call).

(** [get_zone] *)
Definition get_zone (net : network) (self : t) (zone_name : string)
  : result pyval * list request :=
  _make_request net self zone_api "1" "get" false
    [ ("zone_name", PStr zone_name); ("domain_name", PStr zone_name) ].

(** The [params] dictionary of [create_master_zone]. *)
Definition create_master_zone_params (zone_name : string)
    (serial : option Z) (refresh retry expire ttl : Z)
  : list (string * pyval) :=
  let params :=
    [ ("zone_name", PStr zone_name);
      ("refresh", PInt refresh);
      ("retry", PInt retry);
      ("expire", PInt expire);
      ("ttl", PInt ttl) ] in
  match serial with
  | Some serial => Py.dict_set "serial" (PInt serial) params
  | None => params
  end.

(** [create_master_zone]; the defaults of the source are [serial=None],
    [refresh=10800], [retry=3600], [expire=604800], [ttl=86400]. *)
Definition create_master_zone (net : network) (self : t) (zone_name : string)
    (serial : option Z) (refresh retry expire ttl : Z)
  : result pyval * list request :=
  _make_request net self zone_api "1" "create" true
    (create_master_zone_params zone_name serial refresh retry expire ttl).

(** [','.join(forwarders) if isinstance(forwarders, list) else forwarders] *)
Definition forwarders_param (forwarders : pyval) : result pyval :=
  match forwarders with
  | PList xs => Py.join "," xs
  | _ => Ok forwarders
  end.

(** [create_forward_zone]: the arguments are evaluated before the call,
    so a [join] that raises sends nothing. *)
Definition create_forward_zone (net : network) (self : t)
    (zone_name : string) (forwarders : pyval)
  : result pyval * list request :=
  match forwarders_param forwarders with
  | Ok joined =>
      _make_request net self zone_api "1" "create" true
        [ ("zone_name", PStr zone_name);
          ("zone_type", PStr "forward");
          ("forwarders", joined) ]
  | Raise e => (Raise e, [])
  end.

(** [delete_zone] *)
Definition delete_zone (net : network) (self : t) (zone_name : string)
  : result pyval * list request :=
  _make_request net self zone_api "1" "delete" true
    [ ("zone_name", PStr zone_name) ].

(** [enable_zone] *)
Definition enable_zone (net : network) (self : t) (zone_name : string)
  : result pyval * list request :=
  _make_request net self zone_api "1" "set" true
    [ ("zone_name", PStr zone_name);
      ("domain_name", PStr zone_name);
      ("zone_enable", PBool true) ].

(** [disable_zone] *)
Definition disable_zone (net : network) (self : t) (zone_name : string)
  : result pyval * list request :=
  _make_request net self zone_api "1" "set" true
    [ ("zone_name", PStr zone_name);
      ("domain_name", PStr zone_name);
      ("zone_enable", PBool false) ].

(** The dictionary display of [list_records] for one [record]. *)
Definition record_view (record : pyval) : result pyval :=
  record_key <- Py.get record "record_key" (PStr EmptyString) ;;
  name <- Py.get record "rr_owner" (PStr EmptyString) ;;
  type <- Py.get record "rr_type" (PStr EmptyString) ;;
  rdata <- Py.get record "rr_info" (PStr EmptyString) ;;
  ttl <- Py.get record "rr_ttl" (PStr EmptyString) ;;
  full <- Py.get record "full_record" (PStr EmptyString) ;;
  Ok (PDict [ ("record_key", record_key);
              ("name", name);
              ("type", type);
              ("rdata", rdata);
              ("ttl", ttl);
              ("full_record", full) ]).

(** [list_records] *)
Definition list_records (net : network) (self : t) (zone_name : string)
  : result pyval * list request :=
  let call :=
    _make_request net self record_api "1" "list" false
      [ ("zone_name", PStr zone_name); ("domain_name", PStr zone_name) ] in
  (data <- fst call ;; project_items record_view data, snd call).

(** *** SOA, zone configuration, status *)

Definition soa_api : string := "SYNO.DNSServer.Zone.SOA".

(** [get_soa] *)
Definition get_soa (net : network) (self : t) (zone_name : string)
  : result pyval * list request :=
  _make_request net self soa_api "1" "get" false
    [ ("zone_name", PStr zone_name); ("domain_name", PStr zone_name) ].

(** [params[k] = v] when the optional argument is given. *)
Definition set_if {A : Type} (k : string) (inj : A -> pyval) (o : option A)
    (params : list (string * pyval)) : list (string * pyval) :=
  match o with
  | Some v => Py.dict_set k (inj v) params
  | None => params
  end.

(** The [params] dictionary of [update_soa]. *)
Definition update_soa_params (zone_name : string)
    (primary_ns admin_email : option string)
    (serial refresh retry expire ttl : option Z)
  : list (string * pyval) :=
  let params := [ ("zone_name", PStr zone_name) ] in
  let params := set_if "primary_ns" PStr primary_ns params in
  let params := set_if "admin_email" PStr admin_email params in
  let params := set_if "serial" PInt serial params in
  let params := set_if "refresh" PInt refresh params in
  let params := set_if "retry" PInt retry params in
  let params := set_if "expire" PInt expire params in
  set_if "ttl" PInt ttl params.

(** [update_soa] *)
Definition update_soa (net : network) (self : t) (zone_name : string)
    (primary_ns admin_email : option string)
    (serial refresh retry expire ttl : option Z)
  : result pyval * list request :=
  _make_request net self soa_api "1" "set" true
    (update_soa_params zone_name primary_ns admin_email
                       serial refresh retry expire ttl).

(** [get_master_zone_conf] *)
Definition get_master_zone_conf (net : network) (self : t) (zone_name : string)
  : result pyval * list request :=
  _make_request net self "SYNO.DNSServer.Zone.MasterZoneConf" "1" "get" false
    [ ("zone_name", PStr zone_name) ].

(** [get_forward_zone_conf] *)
Definition get_forward_zone_conf (net : network) (self : t) (zone_name : string)
  : result pyval * list request :=
  _make_request net self "SYNO.DNSServer.Zone.ForwardZoneConf" "1" "get" false
    [ ("zone_name", PStr zone_name) ].

(** [export_zone]; [file_type] is ['master'] when the caller omits it. *)
Definition export_zone (net : network) (self : t) (zone_name file_type : string)
  : result pyval * list request :=
  let call :=
    _make_request net self zone_api "1" "export" false
      [ ("zone_name", PStr zone_name);
        ("domain_name", PStr zone_name);
        ("file_type", PStr file_type) ] in
  (data <- fst call ;; Py.get data "zone_file" (PStr EmptyString), snd call).

(** [import_zone] *)
Definition import_zone (net : network) (self : t)
    (zone_name zone_content : string)
  : result pyval * list request :=
  _make_request net self zone_api "1" "import" true
    [ ("zone_name", PStr zone_name); ("zone_content", PStr zone_content) ].

(** [get_server_status] *)
Definition get_server_status (net : network) (self : t)
  : result pyval * list request :=
  _make_request net self "SYNO.DNSServer.DaemonStatus" "1" "get" false [].

End SynologyDNSServer.

(* ===================================================================== *)
(** ** The design document's own formulations *)
(* ===================================================================== *)

Module Spec.

(** The owner-name rule in the document's words: a name ending in a dot
    is used as it is; the root marker [@] gives [<zone>.]; any other name
    gives [<name>.<zone>.]. *)
Definition owner (name zone : string) : string :=
  if Str.endswith name "." then name
  else if String.eqb name "@" then zone ++ "."
  else name ++ "." ++ zone ++ ".".

(** The raw line of a record: the four fields joined by single tabs. *)
Definition raw_line (owner ttl type data : string) : string :=
  Str.join Str.tab [owner; ttl; type; data].

(** A parameter value wrapped in literal quote characters. *)
Definition quote_wrapped (v : pyval) : Prop :=
  exists s : string, v = PStr (Str.quoted s).

End Spec.

(* ===================================================================== *)
(** ** Remote sides used in the examples *)
(* ===================================================================== *)

Module Remote.

(** A 200 response whose body parses to [v]. *)
Definition replies (v : pyval) : result response :=
  Ok {| status_code := 200; http_error_text := EmptyString; json := Ok v |}.

Definition refused : result response :=
  Raise (Exn RequestException "Connection refused").

(** A remote side that answers by the [version] parameter alone. *)
Definition by_version (f : string -> result response) : network :=
  fun req =>
    match Py.dict_get "version" (req_params req) with
    | Some (PStr v) => f v
    | _ => refused
    end.

Definition failure (code : Z) : pyval :=
  PDict [ ("success", PBool false); ("error", PDict [ ("code", PInt code) ]) ].

Definition success_sid (sid : string) : pyval :=
  PDict [ ("success", PBool true); ("data", PDict [ ("sid", PStr sid) ]) ].

Definition success_empty : pyval :=
  PDict [ ("success", PBool true); ("data", PDict []) ].

(** Version 7 is refused, version 6 rejects the password. *)
Definition rejects_password : network :=
  by_version (fun v => if String.eqb v "6" then replies (failure 400) else refused).

(** Versions 7, 6 and 3 answer "no such version", version 2 logs in. *)
Definition old_nas : network :=
  by_version (fun v => if String.eqb v "2" then replies (success_sid "S2")
                       else replies (failure 104)).

(** Version 7 reports success without a session identifier, version 6
    logs in. *)
Definition success_without_sid : network :=
  by_version (fun v => if String.eqb v "7" then replies success_empty
                       else replies (success_sid "S6")).

(** Every version answers with error 101. *)
Definition always_101 : network :=
  fun _ => replies (failure 101).

(** Nothing answers. *)
Definition unreachable : network :=
  fun _ => refused.

(** Every request is answered with [v]. *)
Definition always (v : pyval) : network :=
  fun _ => replies v.

Definition nas : SynologyAuth.t := SynologyAuth.init "https://nas.local:5001/".

Definition nas_logged_in (sid : string) : SynologyAuth.t :=
  {| SynologyAuth.base_url := SynologyAuth.base_url nas;
     SynologyAuth.current_session_id := PStr sid;
     SynologyAuth.current_session_type := "DNSServer" |}.

Definition dns : SynologyDNSServer.t :=
  SynologyDNSServer.init "https://nas.local:5001/" "S1".

(** A response with HTTP status [status] whose body parses to [v]. *)
Definition answers (status : Z) (v : pyval) : result response :=
  Ok {| status_code := status;
        http_error_text := Str.of_Z status ++ " Error";
        json := Ok v |}.

(** Every request gets status 403 and a body with error code 403. *)
Definition forbidden : network :=
  fun _ => answers 403 (failure 403).

(** Version 7 is refused, version 6 answers "session not found". *)
Definition session_gone : network :=
  by_version (fun v => if String.eqb v "6" then replies (failure 105) else refused).

(** Version 7 is refused, version 6 acknowledges the logout. *)
Definition acknowledges_on_6 : network :=
  by_version (fun v => if String.eqb v "6"
                       then replies (PDict [("success", PBool true)])
                       else refused).

End Remote.

(* ===================================================================== *)
(** ** Statement vocabulary for the resource client *)
(* ===================================================================== *)

Module Wire.
Import SynologyDNSServer.

(** The value sent under the key [k] by a call that sent one request. *)
Definition sent_param (k : string) (call : result pyval * list request)
  : option pyval :=
  match snd call with
  | [req] => Py.dict_get k (req_params req)
  | _ => None
  end.

(** The one POST request a record mutation sends: the four entries of
    [_make_request], then the method's own. *)
Definition mutation_request (self : t) (method : string)
    (own : list (string * pyval)) : request :=
  {| req_verb := POST;
     req_url := api_url self;
     req_params := (envelope self record_api "1" method ++ own)%list |}.

(** An item of the delete list whose [full_record] is the raw line of its
    own four fields. *)
Definition carries_raw_line (item : pyval) : Prop :=
  exists kvs owner ttl type data,
    item = PDict kvs
    /\ Py.dict_get "rr_owner" kvs = Some (PStr owner)
    /\ Py.dict_get "rr_ttl" kvs = Some (PStr ttl)
    /\ Py.dict_get "rr_type" kvs = Some (PStr type)
    /\ Py.dict_get "rr_info" kvs = Some (PStr data)
    /\ Py.dict_get "full_record" kvs
       = Some (PStr (Spec.raw_line owner ttl type data)).

(** A field of a JSON object as [json.dumps] writes it when the value is
    a string: the key, a colon, the value as a string literal. *)
Definition json_field (k v : string) : string :=
  Json.encode_str k ++ ": " ++ Str.quoted (Str.flat_map_chars Json.escape_char v).

(** The text [json.dumps] writes before the value of the field [k]. *)
Definition json_field_open (k : string) : string :=
  Json.encode_str k ++ ": " ++ Str.dquote.

End Wire.

(* ===================================================================== *)
(** ** Statement vocabulary for the negotiator *)
(* ===================================================================== *)

Module Negotiation.
Import SynologyAuth.

(** The requests a login sends for the candidates [vs], in order. *)
Definition login_requests (self : t) (username password session_type : string)
    (vs : list string) : list request :=
  map (login_request self username password session_type) vs.

Definition logout_requests (self : t) (logout_session_type : string)
    (logout_session_id : pyval) (vs : list string) : list request :=
  map (logout_request self logout_session_type logout_session_id) vs.

(** The attempt for [version] does not end the login: it raised, or its
    response was neither a usable success nor an authorization error. *)
Definition login_moves_on (net : network) (self : t)
    (username password session_type version : string) : Prop :=
  forall r, login_try net self username password session_type version
            <> Ok (Return r).

(** A response whose [success] entry is truthy. *)
Definition reports_success (r : pyval) : Prop :=
  exists s, Py.get r "success" PNone = Ok s /\ Py.truthy s = true.

(** A response whose [success] entry is absent or falsy. *)
Definition reports_failure (r : pyval) : Prop :=
  exists s, Py.get r "success" PNone = Ok s /\ Py.truthy s = false.

(** The attempt for [version] neither returns nor breaks, and leaves
    [last] in [last_error]. *)
Definition logout_leaves (net : network) (self : t)
    (logout_session_type : string) (logout_session_id : pyval)
    (version : string) (last : pyval) : Prop :=
  logout_try net self logout_session_type logout_session_id version
    = Ok (Next last) \/
  exists e,
    logout_try net self logout_session_type logout_session_id version = Raise e
    /\ last = logout_except e.

End Negotiation.

(* ===================================================================== *)
(** ** Statement vocabulary for the resource methods *)
(* ===================================================================== *)

Module Calls.
Import SynologyDNSServer.

(** The call sent exactly one request: [verb] on the entry point, for
    [api], version 1 and [method], with the session identifier, followed
    by the parameters [own]. *)
Definition one_call (self : t) (verb : verb) (api method : string)
    (own : list (string * pyval)) (call : result pyval * list request)
  : Prop :=
  snd call = [ {| req_verb := verb;
                  req_url := api_url self;
                  req_params := (envelope self api "1" method ++ own)%list |} ].

(** The key [k] when the optional argument is given, nothing otherwise. *)
Definition given {A : Type} (k : string) (o : option A) : list string :=
  match o with
  | Some _ => [k]
  | None => []
  end.

(** The keys the caller's parameters must avoid for [_make_request] to
    place them after its own four. *)
Definition envelope_keys : list string := ["api"; "version"; "method"; "_sid"].

Definition is_dict (v : pyval) : Prop := exists kvs, v = PDict kvs.

Definition is_str (v : pyval) : Prop := exists s, v = PStr s.

(** The keys of a view returned by [list_zones] and by [list_records]. *)
Definition zone_view_keys : list string :=
  [ "zone_name"; "domain_name"; "zone_type"; "domain_type";
    "zone_enable"; "is_readonly" ].

Definition record_view_keys : list string :=
  [ "record_key"; "name"; "type"; "rdata"; "ttl"; "full_record" ].

Definition has_keys (keys : list string) (v : pyval) : Prop :=
  exists kvs, v = PDict kvs /\ map fst kvs = keys.

(** [view] is the six-entry picture of the zone [item]: it agrees with
    the item on the five plain entries (an absent one reads [None]) and on
    [is_readonly] (absent reads [False]), and has no other key. *)
Definition zone_view_of (item view : pyval) : Prop :=
  has_keys zone_view_keys view
  /\ (forall k, In k [ "zone_name"; "domain_name"; "zone_type";
                       "domain_type"; "zone_enable" ] ->
                Py.get view k PNone = Py.get item k PNone)
  /\ Py.get view "is_readonly" (PBool false)
     = Py.get item "is_readonly" (PBool false).

(** [view] is the six-entry picture of the record [item], with the
    entries renamed as [list_records] does; an absent one reads as the
    empty text. *)
Definition record_view_of (item view : pyval) : Prop :=
  let absent := PStr EmptyString in
  has_keys record_view_keys view
  /\ Py.get view "record_key" absent = Py.get item "record_key" absent
  /\ Py.get view "name" absent = Py.get item "rr_owner" absent
  /\ Py.get view "type" absent = Py.get item "rr_type" absent
  /\ Py.get view "rdata" absent = Py.get item "rr_info" absent
  /\ Py.get view "ttl" absent = Py.get item "rr_ttl" absent
  /\ Py.get view "full_record" absent = Py.get item "full_record" absent.

End Calls.

(* ===================================================================== *)
(** ** Properties of the login loop *)
(* ===================================================================== *)

Section LoginLoop.
Import SynologyAuth Negotiation.

Variable net : network.
Variable self : t.
Variables username password session_type : string.

Let attempt := login_try net self username password session_type.
Let loop := login_loop net self username password session_type.
Let requests := login_requests self username password session_type.

(** One pass of the loop whose attempt returns. *)
Lemma login_loop_return version rest sent result self' :
  attempt version = Ok (Return (result, self')) ->
  loop (version :: rest) sent = (result, self', sent ++ requests [version])%list.
Proof.
  intros H. unfold loop, attempt in *. simpl. rewrite H. reflexivity.
Qed.

(** One pass of the loop whose attempt does not return. *)
Lemma login_loop_next version rest sent :
  login_moves_on net self username password session_type version ->
  loop (version :: rest) sent = loop rest (sent ++ requests [version])%list.
Proof.
  intros H. unfold loop. simpl.
  destruct (login_try net self username password session_type version)
    as [[[r s] | l | l] | e] eqn:E; try reflexivity.
  exfalso. exact (H (r, s) E).
Qed.

(** Candidates that do not return are passed over, each one request. *)
Lemma login_loop_skip pre rest sent :
  (forall v, In v pre ->
             login_moves_on net self username password session_type v) ->
  loop (pre ++ rest)%list sent = loop rest (sent ++ requests pre)%list.
Proof.
  revert sent. induction pre as [| v pre IH]; intros sent H.
  - simpl. unfold requests, login_requests. simpl. now rewrite app_nil_r.
  - change ((v :: pre) ++ rest)%list with (v :: (pre ++ rest))%list.
    rewrite login_loop_next by (apply H; now left).
    rewrite IH by (intros u Hu; apply H; now right).
    unfold requests, login_requests. simpl. now rewrite <- app_assoc.
Qed.

(** When no candidate returns, the synthetic failure comes back, the
    cached session is untouched, and every candidate was tried once. *)
Lemma login_loop_exhausted versions sent :
  (forall v, In v versions ->
             login_moves_on net self username password session_type v) ->
  loop versions sent = (login_failed, self, sent ++ requests versions)%list.
Proof.
  intros H. rewrite <- (app_nil_r versions) at 1.
  rewrite login_loop_skip by exact H. reflexivity.
Qed.

(** The requests of a login are those of a prefix of the candidates. *)
Lemma login_loop_sent_prefix versions sent :
  exists k, snd (loop versions sent) = (sent ++ requests (firstn k versions))%list.
Proof.
  revert sent. induction versions as [| v vs IH]; intros sent.
  - exists 0%nat. simpl. now rewrite app_nil_r.
  - unfold loop. simpl.
    destruct (login_try net self username password session_type v)
      as [[[r s] | l | l] | e] eqn:E.
    + exists 1%nat. reflexivity.
    + destruct (IH (sent ++ [login_request self username password session_type v])%list)
        as [k Hk].
      exists (S k). unfold loop in Hk. rewrite Hk. simpl. now rewrite <- app_assoc.
    + destruct (IH (sent ++ [login_request self username password session_type v])%list)
        as [k Hk].
      exists (S k). unfold loop in Hk. rewrite Hk. simpl. now rewrite <- app_assoc.
    + destruct (IH (sent ++ [login_request self username password session_type v])%list)
        as [k Hk].
      exists (S k). unfold loop in Hk. rewrite Hk. simpl. now rewrite <- app_assoc.
Qed.

(** A raised exception never ends the login. *)
Lemma login_raise_moves_on version e :
  attempt version = Raise e ->
  login_moves_on net self username password session_type version.
Proof.
  intros H r Hr. unfold attempt in H. rewrite H in Hr. discriminate.
Qed.

(** What the [try] body does with a failure response that carries an
    authorization error code. *)
Lemma login_try_auth_error version result success error code :
  fetch_json net (login_request self username password session_type version)
    = Ok result ->
  Py.get result "success" PNone = Ok success ->
  Py.truthy success = false ->
  Py.get result "error" (PDict []) = Ok error ->
  Py.get error "code" (PStr "unknown") = Ok (PInt code) ->
  In code [400; 402; 403; 404] ->
  attempt version = Ok (Return (result, self)).
Proof.
  intros Hf Hs Ht He Hc Hin. unfold attempt, login_try.
  rewrite Hf. cbn [bind]. rewrite Hs. cbn [bind]. rewrite Ht.
  rewrite He. cbn [bind]. rewrite Hc. cbn [bind].
  assert (Hm : Py.in_ (PInt code) login_auth_errors = true).
  { simpl in Hin. destruct Hin as [<- | [<- | [<- | [<- | []]]]]; reflexivity. }
  rewrite Hm. reflexivity.
Qed.

(** What the [try] body does with a success response that carries
    [data.sid]. *)
Lemma login_try_success version result success data sid :
  fetch_json net (login_request self username password session_type version)
    = Ok result ->
  Py.get result "success" PNone = Ok success ->
  Py.truthy success = true ->
  Py.getitem result "data" = Ok data ->
  Py.getitem data "sid" = Ok sid ->
  attempt version =
    Ok (Return (result,
                {| base_url := base_url self;
                   current_session_id := sid;
                   current_session_type := session_type |})).
Proof.
  intros Hf Hs Ht Hd Hsid. unfold attempt, login_try.
  rewrite Hf. cbn [bind]. rewrite Hs. cbn [bind]. rewrite Ht.
  rewrite Hd. cbn [bind]. rewrite Hsid. reflexivity.
Qed.

End LoginLoop.

(* ===================================================================== *)
(** ** Properties of the logout loop *)
(* ===================================================================== *)

Section LogoutLoop.
Import SynologyAuth Negotiation.

Variable net : network.
Variable self : t.
Variable logout_session_type : string.
Variable logout_session_id : pyval.

Let attempt := logout_try net self logout_session_type logout_session_id.
Let loop := logout_loop net self logout_session_type logout_session_id.
Let requests := logout_requests self logout_session_type logout_session_id.
Let leaves := logout_leaves net self logout_session_type logout_session_id.

(** The cached session after a logout attempt that succeeded. *)
Let after_success : t :=
  if Py.eq logout_session_id (current_session_id self)
  then {| base_url := base_url self;
          current_session_id := PNone;
          current_session_type := "FileStation" |}
  else self.

Lemma reports_success_not_failure r :
  reports_failure r -> ~ reports_success r.
Proof.
  intros [s [Hs Hf]] [s' [Hs' Ht]]. rewrite Hs in Hs'.
  injection Hs' as <-. congruence.
Qed.

Lemma error_result_reports_failure code message :
  reports_failure (error_result code message).
Proof. exists (PBool false). split; reflexivity. Qed.

Lemma none_not_success : ~ reports_success PNone.
Proof. intros [s [Hs _]]. discriminate. Qed.

Lemma logout_except_truthy e : Py.truthy (logout_except e) = true.
Proof. unfold logout_except. now destruct (is_request_exception e). Qed.

Lemma logout_except_not_success e : ~ reports_success (logout_except e).
Proof.
  apply reports_success_not_failure. unfold logout_except.
  destruct (is_request_exception e); apply error_result_reports_failure.
Qed.

Lemma logout_finish_not_success last :
  ~ reports_success last -> ~ reports_success (logout_finish last).
Proof.
  intros H. unfold logout_finish. destruct (Py.truthy last); [exact H |].
  apply reports_success_not_failure, error_result_reports_failure.
Qed.

(** The three ways the [try] body of logout can end. *)
Lemma logout_try_cases version :
  (exists e, attempt version = Raise e) \/
  (exists result, attempt version = Ok (Return (result, after_success))
                  /\ reports_success result) \/
  (exists result, (attempt version = Ok (Break result)
                   \/ attempt version = Ok (Next result))
                  /\ reports_failure result
                  /\ fetch_json net
                       (logout_request self logout_session_type
                                       logout_session_id version) = Ok result).
Proof.
  unfold attempt, logout_try, after_success.
  destruct (fetch_json net _) as [result | e]; cbn [bind]; [| left; eauto].
  destruct (Py.get result "success" PNone) as [success | e] eqn:Hs;
    cbn [bind]; [| left; eauto].
  destruct (Py.truthy success) eqn:Ht.
  - right; left. exists result. split.
    + now destruct (Py.eq logout_session_id (current_session_id self)).
    + exists success. now split.
  - destruct (Py.get result "error" (PDict [])) as [error | e];
      cbn [bind]; [| left; eauto].
    destruct (Py.get error "code" (PStr "unknown")) as [code | e];
      cbn [bind]; [| left; eauto].
    right; right. exists result. split; [| split].
    + destruct (Py.in_ code logout_session_errors); auto.
    + exists success. now split.
    + reflexivity.
Qed.

(** A success result of the loop comes from a successful attempt, never
    from the value of [last_error]. *)
Lemma logout_loop_success versions :
  forall last sent result self' sent',
    ~ reports_success last ->
    loop versions last sent = (result, self', sent') ->
    reports_success result ->
    self' = after_success.
Proof.
  induction versions as [| v vs IH]; intros last sent result self' sent' Hl H Hr.
  - unfold loop in H. simpl in H. injection H as <- <- <-.
    exfalso. exact (logout_finish_not_success _ Hl Hr).
  - unfold loop in H. simpl in H.
    destruct (logout_try_cases v) as [[e He] | [[r [He Hs]] | [r [He [Hf _]]]]];
      unfold attempt in He.
    + rewrite He in H. eapply IH; [| exact H | exact Hr].
      apply logout_except_not_success.
    + rewrite He in H. now injection H as <- <- <-.
    + destruct He as [He | He]; rewrite He in H.
      * injection H as <- <- <-. exfalso.
        exact (logout_finish_not_success _ (reports_success_not_failure _ Hf) Hr).
      * eapply IH; [| exact H | exact Hr].
        now apply reports_success_not_failure.
Qed.

(** Passing over candidates: the value of [last_error] is that of the most
    recent attempt, and every candidate costs one request. *)
Lemma logout_loop_exhausted versions :
  forall last sent,
    (forall v, In v versions -> exists l, leaves v l) ->
    exists last',
      loop versions last sent
      = (logout_finish last', self, sent ++ requests versions)%list
      /\ (versions = [] -> last' = last)
      /\ (forall pre v, versions = (pre ++ [v])%list -> leaves v last').
Proof.
  induction versions as [| v vs IH]; intros last sent H.
  - exists last. unfold loop. simpl. rewrite app_nil_r. repeat split.
    intros pre v Hv. destruct pre; discriminate.
  - destruct (H v (or_introl Logic.eq_refl)) as [l Hl].
    destruct (IH l (sent ++ requests [v])%list
                 (fun u Hu => H u (or_intror Hu))) as [last' [Hloop [Hnil Hlast]]].
    assert (Hstep : loop (v :: vs) last sent = loop vs l (sent ++ requests [v])%list).
    { unfold loop, leaves, logout_leaves in *. simpl.
      destruct Hl as [Hl | [e [Hl ->]]]; now rewrite Hl. }
    exists last'. rewrite Hstep, Hloop. split; [| split].
    + unfold requests, logout_requests. simpl. now rewrite <- app_assoc.
    + discriminate.
    + intros pre u Hu. destruct pre as [| p pre].
      * simpl in Hu. injection Hu as -> ->. now rewrite (Hnil Logic.eq_refl).
      * simpl in Hu. injection Hu as -> ->. now apply (Hlast pre u).
Qed.

End LogoutLoop.

(* ===================================================================== *)
(** ** The negotiator: login *)
(* ===================================================================== *)

Import SynologyAuth Negotiation.

(** C1. When the candidate [version] is reached (no earlier candidate ended
    the login) and its response reports failure with an error code among
    400, 402, 403 and 404, [login_with_session] returns exactly that
    response, leaves the cached session as it was, and the requests sent
    stop at [version]: no later candidate is attempted. *)
Theorem login_auth_error_is_terminal
    (net : network) (self : t) (username password session_type : string)
    (pre post : list string) (version : string)
    (result success error : pyval) (code : Z) :
  api_versions = (pre ++ version :: post)%list ->
  (forall v, In v pre ->
             login_moves_on net self username password session_type v) ->
  fetch_json net (login_request self username password session_type version)
    = Ok result ->
  Py.get result "success" PNone = Ok success ->
  Py.truthy success = false ->
  Py.get result "error" (PDict []) = Ok error ->
  Py.get error "code" (PStr "unknown") = Ok (PInt code) ->
  In code [400; 402; 403; 404] ->
  login_with_session net self username password session_type
  = (result, self,
     login_requests self username password session_type (pre ++ [version])).
Proof.
  intros Hv Hpre Hf Hs Ht He Hc Hin.
  unfold login_with_session. rewrite Hv.
  rewrite login_loop_skip by exact Hpre.
  rewrite (login_loop_return net self username password session_type
             version post _ result self).
  - unfold login_requests. now rewrite map_app.
  - eapply login_try_auth_error; eassumption.
Qed.

(** C1 at a concrete remote side: version 7 is refused, version 6 answers
    with code 400; versions 3 and 2 are never asked. *)
Lemma login_auth_error_is_terminal_witness :
  login_with_session Remote.rejects_password Remote.nas "admin" "secret" "DNSServer"
  = (Remote.failure 400, Remote.nas,
     login_requests Remote.nas "admin" "secret" "DNSServer" ["7"; "6"]).
Proof.
  apply (login_auth_error_is_terminal
           Remote.rejects_password Remote.nas "admin" "secret" "DNSServer"
           ["7"] ["3"; "2"] "6"
           (Remote.failure 400) (PBool false) (PDict [("code", PInt 400)]) 400).
  - reflexivity.
  - intros v [<- | []] r H. vm_compute in H. discriminate.
  - reflexivity.
  - reflexivity.
  - reflexivity.
  - reflexivity.
  - reflexivity.
  - simpl. auto.
Defined.

(** C2 as stated fails: the response to version 7 reports success, yet it
    is not what [login_with_session] returns, and version 6 is attempted
    after it.  The response has no [data.sid], the lookup raises, and the
    [except] clause moves on. *)
Lemma login_success_without_sid_is_skipped :
  fetch_json Remote.success_without_sid
    (login_request Remote.nas "admin" "secret" "DNSServer" "7")
  = Ok Remote.success_empty
  /\ reports_success Remote.success_empty
  /\ fst (fst (login_with_session Remote.success_without_sid Remote.nas
                 "admin" "secret" "DNSServer"))
     <> Remote.success_empty
  /\ snd (login_with_session Remote.success_without_sid Remote.nas
            "admin" "secret" "DNSServer")
     = login_requests Remote.nas "admin" "secret" "DNSServer" ["7"; "6"].
Proof.
  split; [reflexivity |]. split.
  - exists (PBool true). split; reflexivity.
  - split; [| reflexivity]. vm_compute. discriminate.
Qed.

(** C2, amended. The candidates are 7, 6, 3, 2 in this order.  When
    [version] is reached and its response reports success and carries a
    session identifier at [data.sid], [login_with_session] returns that
    response, caches the identifier and the requested session type, and
    the requests sent are those for the candidates up to [version], in
    order: no later candidate is attempted. *)
Theorem login_returns_first_session
    (net : network) (self : t) (username password session_type : string)
    (pre post : list string) (version : string)
    (result success data sid : pyval) :
  ["7"; "6"; "3"; "2"] = (pre ++ version :: post)%list ->
  (forall v, In v pre ->
             login_moves_on net self username password session_type v) ->
  fetch_json net (login_request self username password session_type version)
    = Ok result ->
  Py.get result "success" PNone = Ok success ->
  Py.truthy success = true ->
  Py.getitem result "data" = Ok data ->
  Py.getitem data "sid" = Ok sid ->
  login_with_session net self username password session_type
  = (result,
     {| base_url := base_url self;
        current_session_id := sid;
        current_session_type := session_type |},
     login_requests self username password session_type (pre ++ [version])).
Proof.
  intros Hv Hpre Hf Hs Ht Hd Hsid.
  unfold login_with_session. change api_versions with ["7"; "6"; "3"; "2"].
  rewrite Hv. rewrite login_loop_skip by exact Hpre.
  rewrite (login_loop_return net self username password session_type
             version post _ result
             {| base_url := base_url self;
                current_session_id := sid;
                current_session_type := session_type |}).
  - unfold login_requests. now rewrite map_app.
  - eapply login_try_success; eassumption.
Qed.

(** C2, amended, at a concrete remote side: versions 7, 6 and 3 answer
    with a non-terminal error, version 2 logs in; four requests. *)
Lemma login_returns_first_session_witness :
  login_with_session Remote.old_nas Remote.nas "admin" "secret" "DNSServer"
  = (Remote.success_sid "S2",
     {| base_url := base_url Remote.nas;
        current_session_id := PStr "S2";
        current_session_type := "DNSServer" |},
     login_requests Remote.nas "admin" "secret" "DNSServer" ["7"; "6"; "3"; "2"]).
Proof.
  apply (login_returns_first_session
           Remote.old_nas Remote.nas "admin" "secret" "DNSServer"
           ["7"; "6"; "3"] [] "2"
           (Remote.success_sid "S2") (PBool true)
           (PDict [("sid", PStr "S2")]) (PStr "S2")).
  - reflexivity.
  - intros v [<- | [<- | [<- | []]]] r H; vm_compute in H; discriminate.
  - reflexivity.
  - reflexivity.
  - reflexivity.
  - reflexivity.
  - reflexivity.
Defined.

(** The requests of any login are those for a prefix of 7, 6, 3, 2. *)
Lemma login_sends_prefix
    (net : network) (self : t) (username password session_type : string) :
  exists k,
    snd (login_with_session net self username password session_type)
    = login_requests self username password session_type
        (firstn k ["7"; "6"; "3"; "2"]).
Proof.
  destruct (login_loop_sent_prefix net self username password session_type
              api_versions []) as [k Hk].
  exists k. exact Hk.
Qed.

(** When no candidate ends the login, the caller gets the fixed result
    with code [unknown], whatever the attempts observed. *)
Lemma login_exhausted
    (net : network) (self : t) (username password session_type : string) :
  (forall v, In v api_versions ->
             login_moves_on net self username password session_type v) ->
  login_with_session net self username password session_type
  = (login_failed, self,
     login_requests self username password session_type api_versions).
Proof.
  intros H. unfold login_with_session.
  now rewrite login_loop_exhausted by exact H.
Qed.

(** C3, on the login side, evaluated: every candidate answers with error
    101, or none answers at all; in both runs the caller receives the same
    fixed result with code [unknown], which is neither the last response
    nor a record of the last exception. *)
Theorem login_exhausted_forgets_last_error :
  login_with_session Remote.always_101 Remote.nas "admin" "secret" "DNSServer"
  = (login_failed, Remote.nas,
     login_requests Remote.nas "admin" "secret" "DNSServer" ["7"; "6"; "3"; "2"])
  /\ login_with_session Remote.unreachable Remote.nas "admin" "secret" "DNSServer"
     = (login_failed, Remote.nas,
        login_requests Remote.nas "admin" "secret" "DNSServer" ["7"; "6"; "3"; "2"])
  /\ fetch_json Remote.always_101
       (login_request Remote.nas "admin" "secret" "DNSServer" "2")
     = Ok (Remote.failure 101)
  /\ login_failed <> Remote.failure 101.
Proof.
  repeat split; try reflexivity. discriminate.
Qed.

(* ===================================================================== *)
(** ** The negotiator: logout *)
(* ===================================================================== *)

(** On the logout side the last error is kept: when no candidate returns
    or breaks, the caller receives what the last attempt left in
    [last_error] (the response, or the record built from the exception),
    or the [all_versions_failed] result when that value is empty. *)
Lemma logout_exhausted_returns_last_error
    (net : network) (self : t) (session_id session_type : option string) :
  let logout_session_id :=
    Py.or_ (Py.of_opt session_id) (current_session_id self) in
  let logout_session_type := Py.or_str session_type (current_session_type self) in
  Py.truthy logout_session_id = true ->
  (forall v, In v api_versions ->
             exists l, logout_leaves net self logout_session_type
                                     logout_session_id v l) ->
  exists last,
    logout_leaves net self logout_session_type logout_session_id "2" last
    /\ logout net self session_id session_type
       = (logout_finish last, self,
          logout_requests self logout_session_type logout_session_id
            api_versions).
Proof.
  intros lsid lst Ht H. unfold logout. fold lsid lst. rewrite Ht. cbn [negb].
  destruct (logout_loop_exhausted net self lst lsid api_versions PNone [] H)
    as [last [Hloop [_ Hlast]]].
  exists last. split.
  - exact (Hlast ["7"; "6"; "3"] "2" Logic.eq_refl).
  - exact Hloop.
Qed.

(** A transport exception at the last candidate reaches the caller as a
    [network_error] or [unknown_error] result carrying its text. *)
Lemma logout_finish_except (e : exn) :
  logout_finish (logout_except e) = logout_except e.
Proof.
  unfold logout_finish.
  now rewrite (logout_except_truthy).
Qed.

(** C8. With no session identifier supplied and none cached, [logout]
    returns the [no_session] result, changes nothing and sends no
    request, whatever the remote side would answer. *)
Theorem logout_without_session
    (net : network) (self : t) (session_type : option string) :
  current_session_id self = PNone ->
  logout net self None session_type = (no_session, self, []).
Proof.
  intros H. unfold logout. rewrite H. reflexivity.
Qed.

(** C8 on a negotiator that never logged in. *)
Lemma logout_without_session_witness :
  logout (Remote.always (Remote.success_sid "S1")) Remote.nas None None
  = (no_session, Remote.nas, []).
Proof.
  apply (logout_without_session
           (Remote.always (Remote.success_sid "S1")) Remote.nas None).
  reflexivity.
Defined.

(** Read from the result: whenever [logout] returns a result that
    reports success, the cache was cleared if the identifier logged out
    equals the cached one, and is exactly what it was if they differ. *)
Lemma logout_reported_success_state
    (net : network) (self self' : t) (session_id session_type : option string)
    (result : pyval) (sent : list request) :
  logout net self session_id session_type = (result, self', sent) ->
  reports_success result ->
  let logout_session_id :=
    Py.or_ (Py.of_opt session_id) (current_session_id self) in
  (Py.eq logout_session_id (current_session_id self) = true ->
   self' = {| base_url := base_url self;
              current_session_id := PNone;
              current_session_type := "FileStation" |})
  /\ (Py.eq logout_session_id (current_session_id self) = false ->
      self' = self).
Proof.
  intros H Hr lsid. unfold logout in H. fold lsid in H.
  destruct (negb (Py.truthy lsid)).
  - injection H as <- <- <-. exfalso.
    exact (reports_success_not_failure _
             (error_result_reports_failure _ _) Hr).
  - pose proof (logout_loop_success net self _ lsid api_versions
                  PNone [] result self' sent none_not_success H Hr) as E.
    split; intros Heq; rewrite Heq in E; exact E.
Qed.

(** A run of the other case: logging out the foreign session S2 leaves
    the cached session S1 in place. *)
Example logout_foreign_session_keeps_cache :
  logout (Remote.always (PDict [("success", PBool true)]))
         (Remote.nas_logged_in "S1") (Some "S2") None
  = (PDict [("success", PBool true)], Remote.nas_logged_in "S1",
     logout_requests (Remote.nas_logged_in "S1") "DNSServer" (PStr "S2") ["7"]).
Proof. reflexivity. Qed.

(* ===================================================================== *)
(** ** Strings: concatenation, joining and splitting *)
(* ===================================================================== *)

Lemma append_assoc (a b c : string) : ((a ++ b) ++ c = a ++ (b ++ c))%string.
Proof. induction a as [| x a IH]; simpl; [reflexivity | now rewrite IH]. Qed.

Lemma split_no_sep (c : ascii) (s : string) :
  Str.contains c s = false -> Str.split c s = [s].
Proof.
  induction s as [| a s IH]; simpl; [reflexivity |].
  intros H. apply orb_false_iff in H as [Ha Hs].
  rewrite Ha, (IH Hs). reflexivity.
Qed.

Lemma split_append (c : ascii) (s rest : string) :
  Str.contains c s = false ->
  Str.split c (s ++ Str.chr c ++ rest) = s :: Str.split c rest.
Proof.
  induction s as [| a s IH]; simpl; intros H.
  - now rewrite Ascii.eqb_refl.
  - apply orb_false_iff in H as [Ha Hs].
    rewrite Ha. simpl in IH. rewrite (IH Hs). reflexivity.
Qed.

(** The raw line can be taken apart again: splitting it at the tabs gives
    back the four fields in order, provided none of them contains a tab. *)
Lemma raw_line_split (owner ttl type data : string) :
  Str.contains "009" owner = false ->
  Str.contains "009" ttl = false ->
  Str.contains "009" type = false ->
  Str.contains "009" data = false ->
  Str.split "009" (Spec.raw_line owner ttl type data) = [owner; ttl; type; data].
Proof.
  intros Ho Ht Hy Hd. unfold Spec.raw_line, Str.join, Str.tab.
  rewrite (split_append _ _ _ Ho), (split_append _ _ _ Ht),
          (split_append _ _ _ Hy), (split_no_sep _ _ Hd).
  reflexivity.
Qed.

Lemma endswith_append (s suffix : string) :
  Str.endswith (s ++ suffix) suffix = true.
Proof.
  induction s as [| a s IH]; simpl.
  - destruct suffix; simpl; [reflexivity |].
    now rewrite String.eqb_refl, Ascii.eqb_refl.
  - rewrite IH. apply orb_true_r.
Qed.

(** A text that does not begin with a quote character is not
    quote-wrapped. *)
Lemma not_quote_wrapped (a : ascii) (s : string) :
  a <> "034"%char -> ~ Spec.quote_wrapped (PStr (String a s)).
Proof.
  intros Ha [t Ht]. unfold Str.quoted, Str.dquote, Str.chr in Ht.
  simpl in Ht. congruence.
Qed.

Lemma quoted_wrapped (s : string) : Spec.quote_wrapped (PStr (Str.quoted s)).
Proof. now exists s. Qed.

(* ===================================================================== *)
(** ** The resource client *)
(* ===================================================================== *)

Import SynologyDNSServer Wire.

(** Every call of [_make_request] sends exactly one request. *)
Lemma make_request_sends_one
    (net : network) (self : SynologyDNSServer.t) (api version method : string)
    (use_post : bool) (params : list (string * pyval)) :
  snd (_make_request net self api version method use_post params)
  = [request_of self api version method use_post params].
Proof. reflexivity. Qed.

(** C7. For a response that parsed, with its [success] entry read:
    when [success] is falsy the call raises (so it returns nothing, the
    [data] field included), and when the response has an error mapping
    with a code, what it raises is the [Exception] whose text holds that
    code and mapping; when [success] is truthy the call returns the
    [data] field (the empty mapping when the field is absent). *)
Theorem make_request_success_or_error
    (net : network) (self : SynologyDNSServer.t) (api version method : string)
    (use_post : bool) (params : list (string * pyval))
    (data success : pyval) :
  fetch_json net (request_of self api version method use_post params) = Ok data ->
  Py.get data "success" PNone = Ok success ->
  (Py.truthy success = false ->
   (exists e, fst (_make_request net self api version method use_post params)
              = Raise e)
   /\ (forall error code,
         Py.get data "error" (PDict []) = Ok error ->
         Py.get error "code" (PStr "unknown") = Ok code ->
         fst (_make_request net self api version method use_post params)
         = Raise (Exn Exception
                    ("DNS Server API error: " ++ Py.str code
                     ++ " - " ++ Py.str error))))
  /\ (Py.truthy success = true ->
      exists payload,
        Py.get data "data" (PDict []) = Ok payload
        /\ fst (_make_request net self api version method use_post params)
           = Ok payload).
Proof.
  intros Hf Hs. unfold _make_request. cbn [fst]. rewrite Hf. cbn [bind].
  rewrite Hs. cbn [bind]. split; intros Ht; rewrite Ht; cbn [negb].
  - split.
    + destruct (Py.get data "error" (PDict [])) as [error | e]; cbn [bind];
        [| eauto].
      destruct (Py.get error "code" (PStr "unknown")) as [code | e]; cbn [bind];
        eauto.
    + intros error code He Hc. rewrite He. cbn [bind]. rewrite Hc. reflexivity.
  - destruct data as [| | | | | kvs]; try discriminate.
    eexists. split; reflexivity.
Qed.

(** C7 at a concrete response: error 10001 comes back as the text of the
    raised exception. *)
Lemma make_request_success_or_error_witness :
  fst (_make_request (Remote.always (Remote.failure 10001)) Remote.dns
         "SYNO.DNSServer.Zone" "1" "list" false [])
  = Raise (Exn Exception "DNS Server API error: 10001 - {'code': 10001}").
Proof.
  destruct (make_request_success_or_error
              (Remote.always (Remote.failure 10001)) Remote.dns
              "SYNO.DNSServer.Zone" "1" "list" false []
              (Remote.failure 10001) (PBool false)
              Logic.eq_refl Logic.eq_refl) as [Hfail _].
  destruct (Hfail Logic.eq_refl) as [_ Hcode].
  exact (Hcode (PDict [("code", PInt 10001)]) (PInt 10001)
               Logic.eq_refl Logic.eq_refl).
Defined.

(** The rule the source applies to the owner, in both places it is
    written, is the document's rule followed by quoting. *)
Lemma owner_rule_quoted (name zone_name : string) :
  (if negb (Str.endswith name ".") then
     if String.eqb name "@"
     then Str.dquote ++ zone_name ++ "." ++ Str.dquote
     else Str.dquote ++ name ++ "." ++ zone_name ++ "." ++ Str.dquote
   else Str.dquote ++ name ++ Str.dquote)%string
  = Str.quoted (Spec.owner name zone_name).
Proof.
  unfold Spec.owner, Str.quoted.
  destruct (Str.endswith name "."); cbn [negb]; [reflexivity |].
  destruct (String.eqb name "@"); now rewrite ?append_assoc.
Qed.

(** C5. For every name and zone, the [rr_owner] parameter [create_record]
    sends, and the one [update_record] sends when a name is given, is the
    quoted owner computed by the document's rule: the name itself when it
    ends in a dot, [<zone>.] for [@], and [<name>.<zone>.] otherwise;
    so [@] in [example.com] gives [example.com.], [www] gives
    [www.example.com.], and a name with a trailing dot is kept. *)
Theorem record_owner_rule
    (net : network) (self : SynologyDNSServer.t)
    (zone_name name record_type rdata record_key : string) (ttl : Z)
    (new_type new_rdata : option string) (new_ttl : option Z) :
  sent_param "rr_owner"
    (create_record net self zone_name name record_type rdata ttl)
  = Some (PStr (Str.quoted (Spec.owner name zone_name)))
  /\ sent_param "rr_owner"
       (update_record net self zone_name record_key (Some name)
                      new_type new_rdata new_ttl)
     = Some (PStr (Str.quoted (Spec.owner name zone_name)))
  /\ Spec.owner "@" "example.com" = "example.com."
  /\ Spec.owner "www" "example.com" = "www.example.com."
  /\ Spec.owner (name ++ ".") zone_name = name ++ ".".
Proof.
  split; [| split; [| split; [| split]]].
  - unfold sent_param, create_record. rewrite make_request_sends_one.
    rewrite owner_rule_quoted. reflexivity.
  - unfold sent_param, update_record. rewrite make_request_sends_one.
    assert (E : Py.dict_get "rr_owner"
                  (req_params
                     (request_of self record_api "1" "set" true
                        (update_record_params zone_name record_key (Some name)
                           new_type new_rdata new_ttl)))
                = Some (PStr (Str.quoted (Spec.owner name zone_name)))).
    { rewrite <- owner_rule_quoted. unfold update_record_params.
      destruct (Str.endswith name "."), (String.eqb name "@"),
        new_type, new_rdata, new_ttl; reflexivity. }
    exact E.
  - reflexivity.
  - reflexivity.
  - unfold Spec.owner. now rewrite endswith_append.
Qed.

Lemma quoted_wrapped2 (a b : string) :
  Spec.quote_wrapped (PStr (Str.dquote ++ a ++ b ++ Str.dquote)).
Proof. exists (a ++ b). unfold Str.quoted. now rewrite append_assoc. Qed.

Lemma quoted_wrapped4 (a b c d : string) :
  Spec.quote_wrapped (PStr (Str.dquote ++ a ++ b ++ c ++ d ++ Str.dquote)).
Proof.
  exists (a ++ b ++ c ++ d). unfold Str.quoted. now rewrite !append_assoc.
Qed.

(** Every entry of a literal list of parameters is quote-wrapped. *)
Ltac all_wrapped :=
  repeat (apply Forall_cons;
          [first [ apply quoted_wrapped
                 | apply quoted_wrapped2
                 | apply quoted_wrapped4 ] |]);
  apply Forall_nil.

(** The parameters [create_record] adds to the four of [_make_request]. *)
Lemma create_record_request
    (net : network) (self : SynologyDNSServer.t)
    (zone_name name record_type rdata : string) (ttl : Z) :
  snd (create_record net self zone_name name record_type rdata ttl)
  = [mutation_request self "create"
       [ ("zone_name", PStr (Str.quoted zone_name));
         ("domain_name", PStr (Str.quoted zone_name));
         ("rr_owner", PStr (Str.quoted (Spec.owner name zone_name)));
         ("rr_type", PStr (Str.quoted record_type));
         ("rr_info", PStr (Str.quoted rdata));
         ("rr_ttl", PStr (Str.quoted (Str.of_Z ttl))) ]].
Proof.
  unfold create_record. rewrite make_request_sends_one, owner_rule_quoted.
  reflexivity.
Qed.

(** The parameters [update_record] adds are its [params] dictionary. *)
Lemma update_record_request
    (net : network) (self : SynologyDNSServer.t)
    (zone_name record_key : string)
    (name record_type rdata : option string) (ttl : option Z) :
  snd (update_record net self zone_name record_key name record_type rdata ttl)
  = [mutation_request self "set"
       (update_record_params zone_name record_key name record_type rdata ttl)].
Proof.
  unfold update_record. rewrite make_request_sends_one.
  unfold update_record_params.
  destruct name as [name |], record_type, rdata, ttl;
    try destruct (Str.endswith name "."), (String.eqb name "@");
    reflexivity.
Qed.

Lemma update_record_params_wrapped
    (zone_name record_key : string)
    (name record_type rdata : option string) (ttl : option Z) :
  Forall (fun kv => Spec.quote_wrapped (snd kv))
    (update_record_params zone_name record_key name record_type rdata ttl).
Proof.
  unfold update_record_params.
  destruct name as [name |], record_type, rdata, ttl;
    try destruct (Str.endswith name "."), (String.eqb name "@");
    cbn [negb Py.dict_set String.eqb Ascii.eqb Bool.eqb];
    all_wrapped.
Qed.

(** The one parameter [delete_record] adds, and the JSON text it holds. *)
Lemma delete_record_request
    (net : network) (self : SynologyDNSServer.t)
    (zone_name rr_owner rr_type rr_info : string) (rr_ttl : option string) :
  snd (delete_record net self zone_name rr_owner rr_type rr_info rr_ttl)
  = [mutation_request self "delete"
       [("items",
         PStr (Json.dumps (items zone_name rr_owner rr_type rr_info rr_ttl)))]].
Proof. reflexivity. Qed.

Lemma delete_record_json
    (zone_name rr_owner rr_type rr_info : string) (rr_ttl : option string) :
  Json.dumps (items zone_name rr_owner rr_type rr_info rr_ttl)
  = "[{" ++ Str.join ", "
              [ json_field "zone_name" zone_name;
                json_field "domain_name" zone_name;
                json_field "rr_owner" rr_owner;
                json_field "rr_type" rr_type;
                json_field "rr_ttl" (Py.or_str rr_ttl "86400");
                json_field "rr_info" rr_info;
                json_field "full_record"
                  (full_record rr_owner rr_type rr_info rr_ttl) ]
     ++ "}]".
Proof.
  unfold items, json_field. cbn [Json.dumps map fst snd Str.join].
  cbn [String.append]. f_equal. f_equal.
  rewrite !append_assoc. reflexivity.
Qed.

(** C4 as stated fails: [create_record] sends the string-valued
    parameter [api] without quotes, and the only parameter
    [delete_record] adds, [items], is a string that begins with a bracket,
    not a quote. *)
Lemma record_mutation_sends_unquoted_strings :
  sent_param "api"
    (create_record (Remote.always (PDict [("success", PBool true)])) Remote.dns
       "example.com" "www" "A" "192.168.1.1" 300)
  = Some (PStr "SYNO.DNSServer.Zone.Record")
  /\ ~ Spec.quote_wrapped (PStr "SYNO.DNSServer.Zone.Record")
  /\ sent_param "items"
       (delete_record (Remote.always (PDict [("success", PBool true)])) Remote.dns
          "example.com" "www.example.com." "A" "192.168.1.1" (Some "300"))
     = Some (PStr (Json.dumps
                     (items "example.com" "www.example.com." "A"
                            "192.168.1.1" (Some "300"))))
  /\ String.get 0 (Json.dumps
                     (items "example.com" "www.example.com." "A"
                            "192.168.1.1" (Some "300")))
     = Some "["%char
  /\ ~ Spec.quote_wrapped
         (PStr (Json.dumps
                  (items "example.com" "www.example.com." "A"
                         "192.168.1.1" (Some "300")))).
Proof.
  split; [reflexivity |]. split.
  - apply not_quote_wrapped. discriminate.
  - split; [reflexivity |]. split; [reflexivity |].
    rewrite delete_record_json. apply not_quote_wrapped. discriminate.
Qed.

(** C4, amended. [create_record] and [update_record] send one POST request
    whose parameters are the four of [_make_request] ([api], [version],
    [method], [_sid], as they are) followed by the method's own, and every
    one of the method's own is wrapped in literal quote characters.
    [delete_record] adds a single parameter, [items], which is not wrapped:
    it is the JSON text of a list of one object, in which each of the
    seven values is written as a JSON string literal between quotes. *)
Theorem record_mutation_quoting
    (net : network) (self : SynologyDNSServer.t)
    (zone_name name record_type rdata record_key : string) (ttl : Z)
    (new_name new_type new_rdata : option string) (new_ttl : option Z)
    (rr_owner rr_type rr_info : string) (rr_ttl : option string) :
  (exists own,
     snd (create_record net self zone_name name record_type rdata ttl)
     = [mutation_request self "create" own]
     /\ map fst own = [ "zone_name"; "domain_name"; "rr_owner";
                        "rr_type"; "rr_info"; "rr_ttl" ]
     /\ Forall (fun kv => Spec.quote_wrapped (snd kv)) own
     /\ Py.dict_get "zone_name" own = Some (PStr (Str.quoted zone_name)))
  /\ (exists own,
        snd (update_record net self zone_name record_key
                           new_name new_type new_rdata new_ttl)
        = [mutation_request self "set" own]
        /\ Forall (fun kv => Spec.quote_wrapped (snd kv)) own
        /\ Py.dict_get "zone_name" own = Some (PStr (Str.quoted zone_name)))
  /\ (exists text,
        snd (delete_record net self zone_name rr_owner rr_type rr_info rr_ttl)
        = [mutation_request self "delete" [("items", PStr text)]]
        /\ ~ Spec.quote_wrapped (PStr text)
        /\ text
           = "[{" ++ Str.join ", "
                       [ json_field "zone_name" zone_name;
                         json_field "domain_name" zone_name;
                         json_field "rr_owner" rr_owner;
                         json_field "rr_type" rr_type;
                         json_field "rr_ttl" (Py.or_str rr_ttl "86400");
                         json_field "rr_info" rr_info;
                         json_field "full_record"
                           (full_record rr_owner rr_type rr_info rr_ttl) ]
              ++ "}]").
Proof.
  split; [| split].
  - eexists. split; [apply create_record_request |].
    split; [reflexivity |]. split; [| reflexivity].
    repeat (apply Forall_cons; [apply quoted_wrapped |]). apply Forall_nil.
  - eexists. split; [apply update_record_request |].
    split; [apply update_record_params_wrapped |].
    unfold update_record_params.
    destruct new_name as [n |], new_type, new_rdata, new_ttl;
      try destruct (Str.endswith n "."), (String.eqb n "@");
      reflexivity.
  - eexists. split; [apply delete_record_request |].
    rewrite delete_record_json. split; [| reflexivity].
    apply not_quote_wrapped. discriminate.
Qed.

(** C6. For every call of [delete_record], the [items] parameter is the
    JSON text of a list of one item; the item carries the zone twice, the
    owner, type, ttl and data as given (the ttl being 86400 when none is
    given), and a [full_record] equal to owner, ttl, type and data joined
    by single tabs in that order. *)
Theorem delete_record_raw_line
    (net : network) (self : SynologyDNSServer.t)
    (zone_name rr_owner rr_type rr_info : string) (rr_ttl : option string) :
  let ttl := Py.or_str rr_ttl "86400" in
  let its :=
    [ PDict [ ("zone_name", PStr zone_name);
              ("domain_name", PStr zone_name);
              ("rr_owner", PStr rr_owner);
              ("rr_type", PStr rr_type);
              ("rr_ttl", PStr ttl);
              ("rr_info", PStr rr_info);
              ("full_record",
               PStr (rr_owner ++ Str.tab ++ ttl ++ Str.tab
                     ++ rr_type ++ Str.tab ++ rr_info)) ] ] in
  items zone_name rr_owner rr_type rr_info rr_ttl = PList its
  /\ sent_param "items"
       (delete_record net self zone_name rr_owner rr_type rr_info rr_ttl)
     = Some (PStr (Json.dumps (PList its)))
  /\ Forall carries_raw_line its
  /\ Spec.raw_line rr_owner ttl rr_type rr_info
     = rr_owner ++ Str.tab ++ ttl ++ Str.tab ++ rr_type ++ Str.tab ++ rr_info.
Proof.
  intros ttl its. split; [reflexivity |]. split; [reflexivity |].
  split; [| reflexivity].
  apply Forall_cons; [| apply Forall_nil].
  eexists _, rr_owner, ttl, rr_type, rr_info.
  split; [reflexivity |]. repeat (split; [reflexivity |]). reflexivity.
Qed.

(** The document's example of the raw line. *)
Example raw_line_example :
  full_record "www.example.com." "A" "192.168.1.1" (Some "300")
  = "www.example.com." ++ Str.tab ++ "300" ++ Str.tab ++ "A" ++ Str.tab
    ++ "192.168.1.1".
Proof. reflexivity. Qed.

(** C10. When [rr_ttl] is omitted, [None] or empty, the item's [rr_ttl] is
    the text 86400 and its [full_record] has 86400 between owner and type;
    the call sends one request, the delete itself, and none to look a ttl
    up. *)
Theorem delete_record_default_ttl
    (net : network) (self : SynologyDNSServer.t)
    (zone_name rr_owner rr_type rr_info : string) (rr_ttl : option string) :
  rr_ttl = None \/ rr_ttl = Some EmptyString ->
  items zone_name rr_owner rr_type rr_info rr_ttl
  = PList [ PDict [ ("zone_name", PStr zone_name);
                    ("domain_name", PStr zone_name);
                    ("rr_owner", PStr rr_owner);
                    ("rr_type", PStr rr_type);
                    ("rr_ttl", PStr "86400");
                    ("rr_info", PStr rr_info);
                    ("full_record",
                     PStr (rr_owner ++ Str.tab ++ "86400" ++ Str.tab
                           ++ rr_type ++ Str.tab ++ rr_info)) ] ]
  /\ snd (delete_record net self zone_name rr_owner rr_type rr_info rr_ttl)
     = [mutation_request self "delete"
          [("items",
            PStr (Json.dumps
                    (items zone_name rr_owner rr_type rr_info rr_ttl)))]].
Proof.
  intros [-> | ->]; split; reflexivity.
Qed.

(** C10 with the ttl omitted. *)
Lemma delete_record_default_ttl_witness :
  items "example.com" "www.example.com." "A" "192.168.1.1" None
  = PList [ PDict [ ("zone_name", PStr "example.com");
                    ("domain_name", PStr "example.com");
                    ("rr_owner", PStr "www.example.com.");
                    ("rr_type", PStr "A");
                    ("rr_ttl", PStr "86400");
                    ("rr_info", PStr "192.168.1.1");
                    ("full_record",
                     PStr ("www.example.com." ++ Str.tab ++ "86400" ++ Str.tab
                           ++ "A" ++ Str.tab ++ "192.168.1.1")) ] ]
  /\ snd (delete_record (Remote.always (Remote.failure 10001)) Remote.dns
            "example.com" "www.example.com." "A" "192.168.1.1" None)
     = [mutation_request Remote.dns "delete"
          [("items",
            PStr (Json.dumps
                    (items "example.com" "www.example.com." "A"
                           "192.168.1.1" None)))]].
Proof.
  apply (delete_record_default_ttl
           (Remote.always (Remote.failure 10001)) Remote.dns
           "example.com" "www.example.com." "A" "192.168.1.1" None).
  left. reflexivity.
Defined.

(* ===================================================================== *)
(** ** The error text determines the remote code *)
(* ===================================================================== *)

Lemma of_Z_parses (n : Z) :
  NilZero.int_of_string (Str.of_Z n) = Some (Z.to_int n).
Proof.
  unfold Str.of_Z. apply NilZero.isi; destruct n; simpl; try discriminate;
    intros H; injection H as H; exact (DecimalPos.Unsigned.to_uint_nonnil _ H).
Qed.

(** [str] is injective on integers. *)
Lemma of_Z_inj (a b : Z) : Str.of_Z a = Str.of_Z b -> a = b.
Proof.
  intros H. pose proof (of_Z_parses a) as Ha. rewrite H, of_Z_parses in Ha.
  injection Ha as Ha.
  rewrite <- (DecimalZ.of_to a), <- (DecimalZ.of_to b). now rewrite Ha.
Qed.

Lemma digits_no_space (d : Decimal.uint) :
  Str.contains " " (NilEmpty.string_of_uint d) = false.
Proof. induction d; simpl; auto. Qed.

Lemma of_Z_no_space (n : Z) : Str.contains " " (Str.of_Z n) = false.
Proof.
  unfold Str.of_Z. destruct n as [| p | p]; simpl; try reflexivity;
    unfold NilZero.string_of_uint;
    destruct (Pos.to_uint p) eqn:E; try reflexivity;
    rewrite <- E; apply digits_no_space.
Qed.

(** Two texts that agree up to and including the first occurrence of a
    separator agree before it. *)
Lemma before_separator (c : ascii) (a b x y : string) :
  Str.contains c a = false ->
  Str.contains c b = false ->
  (a ++ String c x = b ++ String c y)%string ->
  a = b.
Proof.
  revert b. induction a as [| a0 a IH]; intros [| b0 b] Ha Hb H; simpl in *.
  - reflexivity.
  - injection H as H _. apply orb_false_iff in Hb as [Hb _].
    rewrite <- H, Ascii.eqb_refl in Hb. discriminate.
  - injection H as H _. apply orb_false_iff in Ha as [Ha _].
    rewrite H, Ascii.eqb_refl in Ha. discriminate.
  - injection H as H0 H. apply orb_false_iff in Ha as [_ Ha].
    apply orb_false_iff in Hb as [_ Hb].
    now rewrite H0, (IH b Ha Hb H).
Qed.

(** The exception [_make_request] raises carries the remote code: two
    texts built from integer codes are equal only if the codes are. *)
Lemma api_error_text_determines_code (c1 c2 : Z) (info1 info2 : pyval) :
  ("DNS Server API error: " ++ Py.str (PInt c1) ++ " - " ++ Py.str info1
   = "DNS Server API error: " ++ Py.str (PInt c2) ++ " - " ++ Py.str info2)%string ->
  c1 = c2.
Proof.
  intros H. apply of_Z_inj.
  assert (E : forall p a b : string, (p ++ a = p ++ b -> a = b)%string).
  { induction p as [| x p IH]; simpl; intros a b Hab; [exact Hab |].
    injection Hab as Hab. now apply IH. }
  apply E in H. simpl in H.
  eapply (before_separator " "); [apply of_Z_no_space .. | exact H].
Qed.

(* ===================================================================== *)
(** ** The negotiator: what every login and logout does *)
(* ===================================================================== *)

Section LoginOutcome.
Import SynologyAuth Negotiation.

Variable net : network.
Variable self : SynologyAuth.t.
Variables username password session_type : string.

Let attempt := login_try net self username password session_type.
Let loop := login_loop net self username password session_type.

(** The cached session after a login that took [sid]. *)
Let logged_in (sid : pyval) : SynologyAuth.t :=
  {| base_url := base_url self;
     current_session_id := sid;
     current_session_type := session_type |}.

(** The four ways the [try] body of login can end. *)
Lemma login_try_cases version :
  (exists e, attempt version = Raise e)
  \/ attempt version = Ok (Next PNone)
  \/ (exists result, attempt version = Ok (Return (result, self))
                     /\ reports_failure result)
  \/ (exists result data sid,
        attempt version = Ok (Return (result, logged_in sid))
        /\ reports_success result
        /\ Py.getitem result "data" = Ok data
        /\ Py.getitem data "sid" = Ok sid).
Proof.
  unfold attempt, login_try, logged_in.
  destruct (fetch_json net _) as [result | e]; cbn [bind]; [| left; eauto].
  destruct (Py.get result "success" PNone) as [success | e] eqn:Hs;
    cbn [bind]; [| left; eauto].
  destruct (Py.truthy success) eqn:Ht.
  - destruct (Py.getitem result "data") as [data | e] eqn:Hd;
      cbn [bind]; [| left; eauto].
    destruct (Py.getitem data "sid") as [sid | e] eqn:Hsid;
      cbn [bind]; [| left; eauto].
    right; right; right. exists result, data, sid.
    repeat split; try assumption. exists success. now split.
  - destruct (Py.get result "error" (PDict [])) as [error | e];
      cbn [bind]; [| left; eauto].
    destruct (Py.get error "code" (PStr "unknown")) as [code | e];
      cbn [bind]; [| left; eauto].
    destruct (Py.in_ code login_auth_errors).
    + right; right; left. exists result. split; [reflexivity |].
      exists success. now split.
    + right; left. reflexivity.
Qed.

Lemma login_failed_reports_failure : reports_failure login_failed.
Proof. exists (PBool false). split; reflexivity. Qed.

Lemma login_loop_outcome versions :
  forall sent result self' sent',
    loop versions sent = (result, self', sent') ->
    (reports_failure result /\ self' = self)
    \/ (reports_success result
        /\ exists data sid,
             Py.getitem result "data" = Ok data
             /\ Py.getitem data "sid" = Ok sid
             /\ self' = logged_in sid).
Proof.
  induction versions as [| v vs IH]; intros sent result self' sent' H.
  - unfold loop in H. simpl in H. injection H as <- <- <-.
    left. split; [apply login_failed_reports_failure | reflexivity].
  - unfold loop in H. simpl in H.
    destruct (login_try_cases v)
      as [[e He] | [He | [[r [He Hf]] | [r [data [sid [He [Hs [Hd Hsid]]]]]]]]];
      unfold attempt in He; rewrite He in H.
    + eapply IH. exact H.
    + eapply IH. exact H.
    + injection H as <- <- <-. left. now split.
    + injection H as <- <- <-. right. split; [exact Hs |]. now exists data, sid.
Qed.

End LoginOutcome.

(** X1. Whatever the remote side does, a login ends in one of two ways:
    the result reports failure and the cached session is exactly what it
    was, or the result reports success, carries [data.sid], and the cache
    holds that identifier and the requested session type.  The base URL
    is never touched. *)
Theorem login_outcome
    (net : network) (self self' : SynologyAuth.t)
    (username password session_type : string)
    (result : pyval) (sent : list request) :
  SynologyAuth.login_with_session net self username password session_type
  = (result, self', sent) ->
  (Negotiation.reports_failure result /\ self' = self)
  \/ (Negotiation.reports_success result
      /\ exists data sid,
           Py.getitem result "data" = Ok data
           /\ Py.getitem data "sid" = Ok sid
           /\ self' = {| SynologyAuth.base_url := SynologyAuth.base_url self;
                         SynologyAuth.current_session_id := sid;
                         SynologyAuth.current_session_type := session_type |}).
Proof.
  intros H.
  exact (login_loop_outcome net self username password session_type
           SynologyAuth.api_versions [] result self' sent H).
Qed.

(** X1 at a run that logs in on version 2. *)
Lemma login_outcome_witness :
  (Negotiation.reports_failure (Remote.success_sid "S2")
   /\ Remote.nas_logged_in "S2" = Remote.nas)
  \/ (Negotiation.reports_success (Remote.success_sid "S2")
      /\ exists data sid,
           Py.getitem (Remote.success_sid "S2") "data" = Ok data
           /\ Py.getitem data "sid" = Ok sid
           /\ Remote.nas_logged_in "S2"
              = {| SynologyAuth.base_url := SynologyAuth.base_url Remote.nas;
                   SynologyAuth.current_session_id := sid;
                   SynologyAuth.current_session_type := "DNSServer" |}).
Proof.
  apply (login_outcome Remote.old_nas Remote.nas (Remote.nas_logged_in "S2")
           "admin" "secret" "DNSServer" (Remote.success_sid "S2")
           (Negotiation.login_requests Remote.nas "admin" "secret" "DNSServer"
              ["7"; "6"; "3"; "2"])).
  reflexivity.
Defined.

Section LogoutOutcome.
Import SynologyAuth Negotiation.

Variable net : network.
Variable self : SynologyAuth.t.
Variable logout_session_type : string.
Variable logout_session_id : pyval.

Let attempt := logout_try net self logout_session_type logout_session_id.
Let loop := logout_loop net self logout_session_type logout_session_id.
Let requests := logout_requests self logout_session_type logout_session_id.
Let leaves := logout_leaves net self logout_session_type logout_session_id.

Let after_success : SynologyAuth.t :=
  if Py.eq logout_session_id (current_session_id self)
  then {| base_url := base_url self;
          current_session_id := PNone;
          current_session_type := "FileStation" |}
  else self.

(** What [last_error] can hold: nothing yet, or something that reports
    failure. *)
Let recorded (last : pyval) : Prop :=
  Py.truthy last = true -> reports_failure last.

Lemma logout_finish_reports_failure last :
  recorded last -> reports_failure (logout_finish last).
Proof.
  intros H. unfold logout_finish. destruct (Py.truthy last) eqn:E.
  - now apply H.
  - apply error_result_reports_failure.
Qed.

Lemma logout_except_reports_failure e : reports_failure (logout_except e).
Proof.
  unfold logout_except.
  destruct (is_request_exception e); apply error_result_reports_failure.
Qed.

Lemma logout_loop_outcome versions :
  forall last sent result self' sent',
    recorded last ->
    loop versions last sent = (result, self', sent') ->
    (reports_failure result /\ self' = self)
    \/ (reports_success result /\ self' = after_success).
Proof.
  induction versions as [| v vs IH]; intros last sent result self' sent' Hl H.
  - unfold loop in H. simpl in H. injection H as <- <- <-.
    left. split; [now apply logout_finish_reports_failure | reflexivity].
  - unfold loop in H. simpl in H.
    destruct (logout_try_cases net self logout_session_type logout_session_id v)
      as [[e He] | [[r [He Hs]] | [r [He [Hf _]]]]].
    + rewrite He in H. eapply IH; [| exact H].
      intros _. apply logout_except_reports_failure.
    + rewrite He in H. injection H as <- <- <-. right. now split.
    + destruct He as [He | He]; rewrite He in H.
      * injection H as <- <- <-. left.
        split; [apply logout_finish_reports_failure; now intros _ | reflexivity].
      * eapply IH; [| exact H]. now intros _.
Qed.

(** The requests of the loop are those for a prefix of the candidates,
    and at least one when there is a candidate. *)
Lemma logout_loop_sent_prefix versions :
  forall last sent,
  exists k,
    snd (loop versions last sent) = (sent ++ requests (firstn k versions))%list
    /\ (k <= length versions)%nat
    /\ (versions <> [] -> (1 <= k)%nat).
Proof.
  induction versions as [| v vs IH]; intros last sent.
  - exists 0%nat. simpl. rewrite app_nil_r. repeat split; auto. congruence.
  - unfold loop. simpl.
    assert (Hrec : forall l,
      exists k,
        snd (logout_loop net self logout_session_type logout_session_id vs l
               (sent ++ [logout_request self logout_session_type
                           logout_session_id v])%list)
        = (sent ++ requests (firstn k (v :: vs)))%list
        /\ (k <= S (length vs))%nat /\ (1 <= k)%nat).
    { intros l.
      destruct (IH l (sent ++ [logout_request self logout_session_type
                                 logout_session_id v])%list) as [k [Hk [Hle _]]].
      exists (S k). unfold loop in Hk. rewrite Hk. simpl.
      rewrite <- app_assoc. repeat split; auto with arith. }
    destruct (logout_try net self logout_session_type logout_session_id v)
      as [[[r s] | l | l] | e].
    + exists 1%nat. simpl. repeat split; auto with arith.
    + exists 1%nat. simpl. repeat split; auto with arith.
    + destruct (Hrec l) as [k [Hk [Hle Hge]]]. exists k. auto.
    + destruct (Hrec (logout_except e)) as [k [Hk [Hle Hge]]]. exists k. auto.
Qed.

(** Candidates that neither return nor break are passed over. *)
Lemma logout_loop_skip pre :
  forall rest last sent,
    (forall v, In v pre -> exists l, leaves v l) ->
    exists last',
      loop (pre ++ rest)%list last sent
      = loop rest last' (sent ++ requests pre)%list.
Proof.
  induction pre as [| v pre IH]; intros rest last sent H.
  - exists last. simpl. unfold requests, logout_requests. simpl.
    now rewrite app_nil_r.
  - destruct (H v (or_introl Logic.eq_refl)) as [l Hl].
    destruct (IH rest l (sent ++ requests [v])%list
                 (fun u Hu => H u (or_intror Hu))) as [last' Hloop].
    exists last'.
    assert (Hstep : loop ((v :: pre) ++ rest)%list last sent
                    = loop (pre ++ rest)%list l (sent ++ requests [v])%list).
    { unfold loop, leaves, logout_leaves in *. simpl.
      destruct Hl as [Hl | [e [Hl ->]]]; now rewrite Hl. }
    rewrite Hstep, Hloop. f_equal.
    unfold requests, logout_requests. simpl. now rewrite <- app_assoc.
Qed.

(** What the [try] body does with a failure response whose code says the
    session is gone. *)
Lemma logout_try_session_error version result error code :
  fetch_json net
    (logout_request self logout_session_type logout_session_id version)
  = Ok result ->
  reports_failure result ->
  Py.get result "error" (PDict []) = Ok error ->
  Py.get error "code" (PStr "unknown") = Ok (PInt code) ->
  In code [105; 106] ->
  attempt version = Ok (Break result) /\ Py.truthy result = true.
Proof.
  intros Hf [s [Hs Ht]] He Hc Hin. split.
  - unfold attempt, logout_try. rewrite Hf. cbn [bind].
    rewrite Hs. cbn [bind]. rewrite Ht, He. cbn [bind]. rewrite Hc. cbn [bind].
    assert (Hm : Py.in_ (PInt code) logout_session_errors = true).
    { simpl in Hin. destruct Hin as [<- | [<- | []]]; reflexivity. }
    now rewrite Hm.
  - destruct result as [| | | | | kvs]; try discriminate.
    destruct kvs as [| kv kvs]; [| reflexivity].
    simpl in He. injection He as <-. discriminate.
Qed.

End LogoutOutcome.

(** X2. Whatever the remote side does, a logout ends in one of two ways:
    the result reports failure and the cached session is exactly what it
    was, or the result reports success and the cache is cleared if the
    identifier logged out equals the cached one and untouched otherwise.
    In particular the result is always a mapping whose [success] entry can
    be read. *)
Theorem logout_outcome
    (net : network) (self self' : SynologyAuth.t)
    (session_id session_type : option string)
    (result : pyval) (sent : list request) :
  SynologyAuth.logout net self session_id session_type = (result, self', sent) ->
  (Negotiation.reports_failure result /\ self' = self)
  \/ (Negotiation.reports_success result
      /\ self' =
         if Py.eq (Py.or_ (Py.of_opt session_id)
                          (SynologyAuth.current_session_id self))
                  (SynologyAuth.current_session_id self)
         then {| SynologyAuth.base_url := SynologyAuth.base_url self;
                 SynologyAuth.current_session_id := PNone;
                 SynologyAuth.current_session_type := "FileStation" |}
         else self).
Proof.
  intros H. unfold SynologyAuth.logout in H.
  destruct (negb (Py.truthy _)).
  - injection H as <- <- <-. left.
    split; [apply error_result_reports_failure | reflexivity].
  - eapply logout_loop_outcome; [| exact H]. discriminate.
Qed.

(** X2 at a run where the session is gone on the remote side: the result
    is the response with code 105 and the cache keeps session S1. *)
Lemma logout_outcome_witness :
  (Negotiation.reports_failure (Remote.failure 105)
   /\ Remote.nas_logged_in "S1" = Remote.nas_logged_in "S1")
  \/ (Negotiation.reports_success (Remote.failure 105)
      /\ Remote.nas_logged_in "S1" =
         if Py.eq (Py.or_ (Py.of_opt None)
                          (SynologyAuth.current_session_id
                             (Remote.nas_logged_in "S1")))
                  (SynologyAuth.current_session_id (Remote.nas_logged_in "S1"))
         then {| SynologyAuth.base_url :=
                   SynologyAuth.base_url (Remote.nas_logged_in "S1");
                 SynologyAuth.current_session_id := PNone;
                 SynologyAuth.current_session_type := "FileStation" |}
         else Remote.nas_logged_in "S1").
Proof.
  apply (logout_outcome Remote.session_gone (Remote.nas_logged_in "S1")
           (Remote.nas_logged_in "S1") None None (Remote.failure 105)
           (Negotiation.logout_requests (Remote.nas_logged_in "S1")
              "DNSServer" (PStr "S1") ["7"; "6"])).
  reflexivity.
Defined.

(** X3. When the candidate [version] is reached and its response reports
    failure with error code 105 or 106, [logout] stops there: it returns
    that response, keeps the cached session, and asks no later
    candidate. *)
Theorem logout_session_error_is_terminal
    (net : network) (self : SynologyAuth.t)
    (session_id session_type : option string)
    (pre post : list string) (version : string)
    (result error : pyval) (code : Z) :
  let logout_session_id :=
    Py.or_ (Py.of_opt session_id) (SynologyAuth.current_session_id self) in
  let logout_session_type :=
    Py.or_str session_type (SynologyAuth.current_session_type self) in
  Py.truthy logout_session_id = true ->
  ["7"; "6"; "3"; "2"] = (pre ++ version :: post)%list ->
  (forall v, In v pre ->
     exists l, Negotiation.logout_leaves net self logout_session_type
                 logout_session_id v l) ->
  fetch_json net
    (SynologyAuth.logout_request self logout_session_type logout_session_id
       version)
  = Ok result ->
  Negotiation.reports_failure result ->
  Py.get result "error" (PDict []) = Ok error ->
  Py.get error "code" (PStr "unknown") = Ok (PInt code) ->
  In code [105; 106] ->
  SynologyAuth.logout net self session_id session_type
  = (result, self,
     Negotiation.logout_requests self logout_session_type logout_session_id
       (pre ++ [version])).
Proof.
  intros lsid lst Ht Hv Hpre Hf Hr He Hc Hin.
  unfold SynologyAuth.logout. fold lsid lst. rewrite Ht. cbn [negb].
  change SynologyAuth.api_versions with ["7"; "6"; "3"; "2"]. rewrite Hv.
  destruct (logout_loop_skip net self lst lsid pre (version :: post) PNone []
              Hpre) as [last' ->].
  destruct (logout_try_session_error net self lst lsid version result error
              code Hf Hr He Hc Hin) as [Hb Htr].
  simpl. rewrite Hb. unfold SynologyAuth.logout_finish. rewrite Htr.
  unfold Negotiation.logout_requests. now rewrite map_app.
Qed.

(** X3 at a concrete remote side: version 7 is refused, version 6 answers
    with code 105; versions 3 and 2 are never asked. *)
Lemma logout_session_error_is_terminal_witness :
  SynologyAuth.logout Remote.session_gone (Remote.nas_logged_in "S1") None None
  = (Remote.failure 105, Remote.nas_logged_in "S1",
     Negotiation.logout_requests (Remote.nas_logged_in "S1")
       "DNSServer" (PStr "S1") ["7"; "6"]).
Proof.
  apply (logout_session_error_is_terminal
           Remote.session_gone (Remote.nas_logged_in "S1") None None
           ["7"] ["3"; "2"] "6"
           (Remote.failure 105) (PDict [("code", PInt 105)]) 105).
  - reflexivity.
  - reflexivity.
  - intros v [<- | []]. eexists. right. eexists. split; reflexivity.
  - reflexivity.
  - exists (PBool false). split; reflexivity.
  - reflexivity.
  - reflexivity.
  - simpl. auto.
Defined.

(** C9. On a successful logout, that is, when the candidate [version] is
    reached and its response reports success, [logout] returns that
    response and asks no later candidate; and the cached session follows
    the identifiers: if the identifier logged out equals the cached one,
    the cached identifier becomes [None] and the cached type
    ['FileStation']; if they differ, the cached session is exactly what it
    was. *)
Theorem logout_success_clears_matching_session
    (net : network) (self : SynologyAuth.t)
    (session_id session_type : option string)
    (pre post : list string) (version : string) (result : pyval) :
  let logout_session_id :=
    Py.or_ (Py.of_opt session_id) (SynologyAuth.current_session_id self) in
  let logout_session_type :=
    Py.or_str session_type (SynologyAuth.current_session_type self) in
  Py.truthy logout_session_id = true ->
  ["7"; "6"; "3"; "2"] = (pre ++ version :: post)%list ->
  (forall v, In v pre ->
     exists l, Negotiation.logout_leaves net self logout_session_type
                 logout_session_id v l) ->
  fetch_json net
    (SynologyAuth.logout_request self logout_session_type logout_session_id
       version)
  = Ok result ->
  Negotiation.reports_success result ->
  (Py.eq logout_session_id (SynologyAuth.current_session_id self) = true ->
   SynologyAuth.logout net self session_id session_type
   = (result,
      {| SynologyAuth.base_url := SynologyAuth.base_url self;
         SynologyAuth.current_session_id := PNone;
         SynologyAuth.current_session_type := "FileStation" |},
      Negotiation.logout_requests self logout_session_type logout_session_id
        (pre ++ [version])))
  /\ (Py.eq logout_session_id (SynologyAuth.current_session_id self) = false ->
      SynologyAuth.logout net self session_id session_type
      = (result, self,
         Negotiation.logout_requests self logout_session_type logout_session_id
           (pre ++ [version]))).
Proof.
  intros lsid lst Ht Hv Hpre Hf [success [Hs Hsucc]].
  assert (Hrun :
    SynologyAuth.logout net self session_id session_type
    = (result,
       (if Py.eq lsid (SynologyAuth.current_session_id self)
        then {| SynologyAuth.base_url := SynologyAuth.base_url self;
                SynologyAuth.current_session_id := PNone;
                SynologyAuth.current_session_type := "FileStation" |}
        else self),
       Negotiation.logout_requests self lst lsid (pre ++ [version]))).
  { unfold SynologyAuth.logout. fold lsid lst. rewrite Ht. cbn [negb].
    change SynologyAuth.api_versions with ["7"; "6"; "3"; "2"]. rewrite Hv.
    destruct (logout_loop_skip net self lst lsid pre (version :: post) PNone []
                Hpre) as [last' ->].
    simpl. unfold SynologyAuth.logout_try. rewrite Hf. cbn [bind].
    rewrite Hs. cbn [bind]. rewrite Hsucc.
    unfold Negotiation.logout_requests. rewrite map_app.
    now destruct (Py.eq lsid (SynologyAuth.current_session_id self)). }
  split; intros Heq; rewrite Heq in Hrun; exact Hrun.
Qed.

(** C9 at two runs against a remote side that refuses version 7 and
    acknowledges on version 6: logging out the cached session S1 clears
    the cache; logging out the foreign session S2 leaves S1 cached. *)
Lemma logout_success_clears_matching_session_witness :
  SynologyAuth.logout Remote.acknowledges_on_6 (Remote.nas_logged_in "S1")
    None None
  = (PDict [("success", PBool true)],
     {| SynologyAuth.base_url := "https://nas.local:5001";
        SynologyAuth.current_session_id := PNone;
        SynologyAuth.current_session_type := "FileStation" |},
     Negotiation.logout_requests (Remote.nas_logged_in "S1")
       "DNSServer" (PStr "S1") ["7"; "6"])
  /\ SynologyAuth.logout Remote.acknowledges_on_6 (Remote.nas_logged_in "S1")
       (Some "S2") None
     = (PDict [("success", PBool true)], Remote.nas_logged_in "S1",
        Negotiation.logout_requests (Remote.nas_logged_in "S1")
          "DNSServer" (PStr "S2") ["7"; "6"]).
Proof.
  split.
  - destruct (logout_success_clears_matching_session
                Remote.acknowledges_on_6 (Remote.nas_logged_in "S1")
                None None ["7"] ["3"; "2"] "6"
                (PDict [("success", PBool true)])) as [Hclear _].
    + reflexivity.
    + reflexivity.
    + intros v [<- | []]. eexists. right. eexists. split; reflexivity.
    + reflexivity.
    + exists (PBool true). split; reflexivity.
    + apply Hclear. reflexivity.
  - destruct (logout_success_clears_matching_session
                Remote.acknowledges_on_6 (Remote.nas_logged_in "S1")
                (Some "S2") None ["7"] ["3"; "2"] "6"
                (PDict [("success", PBool true)])) as [_ Hkeep].
    + reflexivity.
    + reflexivity.
    + intros v [<- | []]. eexists. right. eexists. split; reflexivity.
    + reflexivity.
    + exists (PBool true). split; reflexivity.
    + apply Hkeep. reflexivity.
Defined.

(** X4. When every logout request fails in the transport with a
    [RequestException], the caller receives the [network_error] result
    carrying the text of the last exception; four requests were sent and
    the cached session is kept. *)
Theorem logout_network_errors_reported
    (net : network) (self : SynologyAuth.t)
    (session_id session_type : option string) (text : string -> string) :
  let logout_session_id :=
    Py.or_ (Py.of_opt session_id) (SynologyAuth.current_session_id self) in
  let logout_session_type :=
    Py.or_str session_type (SynologyAuth.current_session_type self) in
  Py.truthy logout_session_id = true ->
  (forall v, In v ["7"; "6"; "3"; "2"] ->
     net (SynologyAuth.logout_request self logout_session_type
            logout_session_id v)
     = Raise (Exn RequestException (text v))) ->
  SynologyAuth.logout net self session_id session_type
  = (SynologyAuth.error_result "network_error" ("Network error: " ++ text "2"),
     self,
     Negotiation.logout_requests self logout_session_type logout_session_id
       ["7"; "6"; "3"; "2"]).
Proof.
  intros lsid lst Ht H.
  assert (Hraise : forall v, In v ["7"; "6"; "3"; "2"] ->
            SynologyAuth.logout_try net self lst lsid v
            = Raise (Exn RequestException (text v))).
  { intros v Hv. unfold SynologyAuth.logout_try, fetch_json.
    now rewrite (H v Hv). }
  destruct (logout_exhausted_returns_last_error net self session_id session_type
              Ht) as [last [Hlast Hrun]].
  { intros v Hv. eexists. right. eexists. split; [apply Hraise, Hv | reflexivity]. }
  rewrite Hrun. fold lsid lst in Hlast.
  assert (E : last = SynologyAuth.logout_except (Exn RequestException (text "2"))).
  { destruct Hlast as [Hl | [e [Hl ->]]];
      rewrite Hraise in Hl by (simpl; auto); [discriminate |].
    now injection Hl as <-. }
  rewrite E. reflexivity.
Qed.

(** X4 with a remote side that refuses every connection. *)
Lemma logout_network_errors_reported_witness :
  SynologyAuth.logout Remote.unreachable (Remote.nas_logged_in "S1") None None
  = (SynologyAuth.error_result "network_error"
       "Network error: Connection refused",
     Remote.nas_logged_in "S1",
     Negotiation.logout_requests (Remote.nas_logged_in "S1")
       "DNSServer" (PStr "S1") ["7"; "6"; "3"; "2"]).
Proof.
  apply (logout_network_errors_reported
           Remote.unreachable (Remote.nas_logged_in "S1") None None
           (fun _ => "Connection refused")).
  - reflexivity.
  - intros v _. reflexivity.
Defined.

(** X5. Every logout that has a session identifier to use sends between
    one and four requests: those for a prefix of 7, 6, 3, 2, each a GET
    carrying the identifier supplied (or else the cached one) as [_sid]
    and the type supplied (or else the cached one) as [session].  Without
    an identifier it sends nothing. *)
Theorem logout_sends_prefix
    (net : network) (self : SynologyAuth.t)
    (session_id session_type : option string) :
  exists k,
    (k <= 4)%nat
    /\ (k = 0%nat <->
        Py.truthy (Py.or_ (Py.of_opt session_id)
                          (SynologyAuth.current_session_id self)) = false)
    /\ snd (SynologyAuth.logout net self session_id session_type)
       = map (fun v =>
                {| req_verb := GET;
                   req_url := SynologyAuth.base_url self ++ "/webapi/auth.cgi";
                   req_params :=
                     [ ("api", PStr "SYNO.API.Auth");
                       ("version", PStr v);
                       ("method", PStr "logout");
                       ("session",
                        PStr (Py.or_str session_type
                                (SynologyAuth.current_session_type self)));
                       ("_sid",
                        Py.or_ (Py.of_opt session_id)
                               (SynologyAuth.current_session_id self)) ] |})
             (firstn k ["7"; "6"; "3"; "2"]).
Proof.
  unfold SynologyAuth.logout.
  destruct (Py.truthy (Py.or_ _ _)) eqn:Ht; cbn [negb].
  - destruct (logout_loop_sent_prefix net self
                (Py.or_str session_type (SynologyAuth.current_session_type self))
                (Py.or_ (Py.of_opt session_id)
                        (SynologyAuth.current_session_id self))
                SynologyAuth.api_versions PNone []) as [k [Hk [Hle Hge]]].
    exists k. split; [exact Hle |]. split.
    + split; [| discriminate]. intros ->.
      assert (1 <= 0)%nat by (apply Hge; discriminate).
      exfalso. eapply Nat.nle_succ_0. eassumption.
    + rewrite Hk. reflexivity.
  - exists 0%nat. split; [auto with arith |]. split; [tauto | reflexivity].
Qed.

Section LoginSends.
Import SynologyAuth Negotiation.

Variable net : network.
Variable self : SynologyAuth.t.
Variables username password session_type : string.

Lemma login_loop_sent_bounds versions :
  forall sent,
  exists k,
    snd (login_loop net self username password session_type versions sent)
    = (sent ++ login_requests self username password session_type
                 (firstn k versions))%list
    /\ (k <= length versions)%nat
    /\ (versions <> [] -> (1 <= k)%nat).
Proof.
  induction versions as [| v vs IH]; intros sent.
  - exists 0%nat. simpl. rewrite app_nil_r. repeat split; auto. congruence.
  - simpl.
    assert (Hrec :
      exists k,
        snd (login_loop net self username password session_type vs
               (sent ++ [login_request self username password session_type v])%list)
        = (sent ++ login_requests self username password session_type
                     (firstn k (v :: vs)))%list
        /\ (k <= S (length vs))%nat /\ (1 <= k)%nat).
    { destruct (IH (sent ++ [login_request self username password
                               session_type v])%list) as [k [Hk [Hle _]]].
      exists (S k). rewrite Hk. simpl.
      rewrite <- app_assoc. repeat split; auto with arith. }
    destruct (login_try net self username password session_type v)
      as [[[r s] | l | l] | e].
    + exists 1%nat. simpl. repeat split; auto with arith.
    + destruct Hrec as [k [Hk [Hle Hge]]]. exists k. auto.
    + destruct Hrec as [k [Hk [Hle Hge]]]. exists k. auto.
    + destruct Hrec as [k [Hk [Hle Hge]]]. exists k. auto.
Qed.

End LoginSends.

(** X6. Every login sends between one and four requests: those for a
    prefix of 7, 6, 3, 2, each a GET on [/webapi/auth.cgi] of the base URL
    carrying the account, the password, the session type and the format
    selector [sid]. *)
Theorem login_sends_between_one_and_four
    (net : network) (self : SynologyAuth.t)
    (username password session_type : string) :
  exists k,
    (1 <= k <= 4)%nat
    /\ snd (SynologyAuth.login_with_session net self
              username password session_type)
       = map (fun v =>
                {| req_verb := GET;
                   req_url := SynologyAuth.base_url self ++ "/webapi/auth.cgi";
                   req_params :=
                     [ ("api", PStr "SYNO.API.Auth");
                       ("version", PStr v);
                       ("method", PStr "login");
                       ("account", PStr username);
                       ("passwd", PStr password);
                       ("session", PStr session_type);
                       ("format", PStr "sid") ] |})
             (firstn k ["7"; "6"; "3"; "2"]).
Proof.
  destruct (login_loop_sent_bounds net self username password session_type
              SynologyAuth.api_versions []) as [k [Hk [Hle Hge]]].
  exists k. split; [split; [apply Hge; discriminate | exact Hle] |].
  exact Hk.
Qed.

(** An HTTP status from 400 to 599 makes [raise_for_status] raise, so the
    body is never read. *)
Lemma fetch_json_http_error (net : network) (req : request) (resp : response) :
  net req = Ok resp ->
  400 <= status_code resp < 600 ->
  fetch_json net req = Raise (Exn RequestException (http_error_text resp)).
Proof.
  intros Hn [Hlo Hhi]. unfold fetch_json, raise_for_status. rewrite Hn.
  cbn [bind].
  apply Z.leb_le in Hlo. apply Z.ltb_lt in Hhi. now rewrite Hlo, Hhi.
Qed.

(** X7. When every candidate is answered with an HTTP status from 400 to
    599, the login ends with the fixed [unknown] failure after four
    requests, whatever the bodies say: the status makes the attempt raise
    before the body is parsed, so even a body with code 403 does not stop
    the loop. *)
Theorem login_http_error_is_not_terminal
    (net : network) (self : SynologyAuth.t)
    (username password session_type : string) :
  (forall v, In v ["7"; "6"; "3"; "2"] ->
     exists resp,
       net (SynologyAuth.login_request self username password session_type v)
       = Ok resp
       /\ 400 <= status_code resp < 600) ->
  SynologyAuth.login_with_session net self username password session_type
  = (SynologyAuth.login_failed, self,
     Negotiation.login_requests self username password session_type
       ["7"; "6"; "3"; "2"]).
Proof.
  intros H. apply login_exhausted. intros v Hv r Hr.
  destruct (H v Hv) as [resp [Hn Hs]].
  unfold SynologyAuth.login_try in Hr.
  rewrite (fetch_json_http_error _ _ _ Hn Hs) in Hr. discriminate.
Qed.

(** X7 with a remote side that answers 403 with code 403 in the body. *)
Lemma login_http_error_is_not_terminal_witness :
  SynologyAuth.login_with_session Remote.forbidden Remote.nas
    "admin" "secret" "DNSServer"
  = (SynologyAuth.login_failed, Remote.nas,
     Negotiation.login_requests Remote.nas "admin" "secret" "DNSServer"
       ["7"; "6"; "3"; "2"]).
Proof.
  apply (login_http_error_is_not_terminal Remote.forbidden Remote.nas
           "admin" "secret" "DNSServer").
  intros v _. eexists. split; [reflexivity |]. cbn [status_code].
  split; [intros C; discriminate C | reflexivity].
Defined.

(** X8. When every candidate answers with a failure whose error code is
    not one of 400, 402, 403, 404 (a missing code counts as [unknown]),
    the login tries all four versions and ends with the fixed [unknown]
    failure, the cached session untouched. *)
Theorem login_other_failures_are_not_terminal
    (net : network) (self : SynologyAuth.t)
    (username password session_type : string) :
  (forall v, In v ["7"; "6"; "3"; "2"] ->
     exists result error code,
       fetch_json net
         (SynologyAuth.login_request self username password session_type v)
       = Ok result
       /\ Negotiation.reports_failure result
       /\ Py.get result "error" (PDict []) = Ok error
       /\ Py.get error "code" (PStr "unknown") = Ok code
       /\ Py.in_ code [PInt 400; PInt 402; PInt 403; PInt 404] = false) ->
  SynologyAuth.login_with_session net self username password session_type
  = (SynologyAuth.login_failed, self,
     Negotiation.login_requests self username password session_type
       ["7"; "6"; "3"; "2"]).
Proof.
  intros H. apply login_exhausted. intros v Hv r Hr.
  destruct (H v Hv) as [result [error [code [Hf [[s [Hs Ht]] [He [Hc Hin]]]]]]].
  unfold SynologyAuth.login_try in Hr. rewrite Hf in Hr. cbn [bind] in Hr.
  rewrite Hs in Hr. cbn [bind] in Hr. rewrite Ht, He in Hr. cbn [bind] in Hr.
  rewrite Hc in Hr. cbn [bind] in Hr.
  change SynologyAuth.login_auth_errors
    with [PInt 400; PInt 402; PInt 403; PInt 404] in Hr.
  rewrite Hin in Hr. discriminate.
Qed.

(** X8 with a remote side that answers 101 to every version. *)
Lemma login_other_failures_are_not_terminal_witness :
  SynologyAuth.login_with_session Remote.always_101 Remote.nas
    "admin" "secret" "DNSServer"
  = (SynologyAuth.login_failed, Remote.nas,
     Negotiation.login_requests Remote.nas "admin" "secret" "DNSServer"
       ["7"; "6"; "3"; "2"]).
Proof.
  apply (login_other_failures_are_not_terminal Remote.always_101 Remote.nas
           "admin" "secret" "DNSServer").
  intros v _. exists (Remote.failure 101), (PDict [("code", PInt 101)]), (PInt 101).
  split; [reflexivity |]. split; [exists (PBool false); split; reflexivity |].
  repeat split; reflexivity.
Defined.

(** X9. Login, then logout with no arguments.  If the login reports
    success and cached a text identifier, and the logout reports success,
    then the negotiator is back to no session and type ['FileStation'],
    [is_logged_in] is false, and the logout requests carried the cached
    identifier and the session type the login asked for. *)
Theorem login_then_logout
    (net1 net2 : network) (self self1 self2 : SynologyAuth.t)
    (username password session_type sid : string)
    (result1 result2 : pyval) (sent1 sent2 : list request) :
  SynologyAuth.login_with_session net1 self username password session_type
  = (result1, self1, sent1) ->
  Negotiation.reports_success result1 ->
  SynologyAuth.current_session_id self1 = PStr sid ->
  SynologyAuth.logout net2 self1 None None = (result2, self2, sent2) ->
  Negotiation.reports_success result2 ->
  self2 = {| SynologyAuth.base_url := SynologyAuth.base_url self;
             SynologyAuth.current_session_id := PNone;
             SynologyAuth.current_session_type := "FileStation" |}
  /\ SynologyAuth.is_logged_in self2 = false
  /\ exists k,
       (1 <= k <= 4)%nat
       /\ sent2 = Negotiation.logout_requests self1 session_type (PStr sid)
                    (firstn k ["7"; "6"; "3"; "2"]).
Proof.
  intros Hlogin Hs1 Hsid Hlogout Hs2.
  assert (Hself1 : self1 = {| SynologyAuth.base_url := SynologyAuth.base_url self;
                              SynologyAuth.current_session_id := PStr sid;
                              SynologyAuth.current_session_type := session_type |}).
  { destruct (login_loop_outcome net1 self username password session_type
                SynologyAuth.api_versions [] result1 self1 sent1 Hlogin)
      as [[Hf _] | [_ [data [s [_ [_ E]]]]]].
    - exfalso. exact (reports_success_not_failure _ Hf Hs1).
    - rewrite E in Hsid. simpl in Hsid. now rewrite E, Hsid. }
  subst self1. unfold SynologyAuth.logout in Hlogout.
  cbn [Py.or_ Py.of_opt Py.truthy Py.or_str negb
       SynologyAuth.current_session_id SynologyAuth.current_session_type]
    in Hlogout.
  destruct (String.eqb sid EmptyString); cbn [negb] in Hlogout.
  { injection Hlogout as <- _ _. exfalso.
    exact (reports_success_not_failure _
             (error_result_reports_failure _ _) Hs2). }
  destruct (logout_loop_outcome net2 _ session_type (PStr sid)
              SynologyAuth.api_versions PNone [] result2 self2 sent2
              (fun C => False_ind _ (Bool.diff_false_true C)) Hlogout)
    as [[Hf _] | [_ E]];
    [exfalso; exact (reports_success_not_failure _ Hf Hs2) |].
  cbn in E. rewrite String.eqb_refl in E.
  split; [exact E |]. split; [now rewrite E |].
  destruct (logout_loop_sent_prefix net2
              {| SynologyAuth.base_url := SynologyAuth.base_url self;
                 SynologyAuth.current_session_id := PStr sid;
                 SynologyAuth.current_session_type := session_type |}
              session_type (PStr sid)
              SynologyAuth.api_versions PNone []) as [k [Hk [Hle Hge]]].
  rewrite Hlogout in Hk. cbn [snd app] in Hk. exists k. split.
  - split; [apply Hge; discriminate | exact Hle].
  - exact Hk.
Qed.

(** X9 at a remote side that accepts version 2 only. *)
Lemma login_then_logout_witness :
  {| SynologyAuth.base_url := "https://nas.local:5001";
     SynologyAuth.current_session_id := PNone;
     SynologyAuth.current_session_type := "FileStation" |}
  = {| SynologyAuth.base_url := SynologyAuth.base_url Remote.nas;
       SynologyAuth.current_session_id := PNone;
       SynologyAuth.current_session_type := "FileStation" |}
  /\ SynologyAuth.is_logged_in
       {| SynologyAuth.base_url := "https://nas.local:5001";
          SynologyAuth.current_session_id := PNone;
          SynologyAuth.current_session_type := "FileStation" |} = false
  /\ exists k,
       (1 <= k <= 4)%nat
       /\ Negotiation.logout_requests (Remote.nas_logged_in "S2")
            "DNSServer" (PStr "S2") ["7"; "6"; "3"; "2"]
          = Negotiation.logout_requests (Remote.nas_logged_in "S2")
              "DNSServer" (PStr "S2") (firstn k ["7"; "6"; "3"; "2"]).
Proof.
  apply (login_then_logout Remote.old_nas Remote.old_nas
           Remote.nas (Remote.nas_logged_in "S2")
           {| SynologyAuth.base_url := "https://nas.local:5001";
              SynologyAuth.current_session_id := PNone;
              SynologyAuth.current_session_type := "FileStation" |}
           "admin" "secret" "DNSServer" "S2"
           (Remote.success_sid "S2") (Remote.success_sid "S2")
           (Negotiation.login_requests Remote.nas "admin" "secret" "DNSServer"
              ["7"; "6"; "3"; "2"])
           (Negotiation.logout_requests (Remote.nas_logged_in "S2")
              "DNSServer" (PStr "S2") ["7"; "6"; "3"; "2"])).
  - reflexivity.
  - exists (PBool true). split; reflexivity.
  - reflexivity.
  - reflexivity.
  - exists (PBool true). split; reflexivity.
Defined.

(* ===================================================================== *)
(** ** The base URL *)
(* ===================================================================== *)

Lemma rstrip_no_trailing (c : ascii) (s : string) :
  Str.endswith (Str.rstrip c s) (Str.chr c) = false.
Proof.
  induction s as [| a s IH]; [reflexivity |].
  simpl. destruct (Str.rstrip c s) as [| b r] eqn:E.
  - destruct (Ascii.eqb a c) eqn:Ha; [reflexivity |].
    simpl. now rewrite Ha.
  - change (Str.endswith (String a (String b r)) (Str.chr c))
      with (String.eqb (String a (String b r)) (Str.chr c)
            || Str.endswith (String b r) (Str.chr c)).
    rewrite IH. simpl. now destruct (Ascii.eqb a c).
Qed.

Lemma rstrip_fixed (c : ascii) (s : string) :
  Str.endswith s (Str.chr c) = false -> Str.rstrip c s = s.
Proof.
  induction s as [| a s IH]; [reflexivity |].
  intros H. simpl in H. apply orb_false_iff in H as [Ha Hs].
  simpl. rewrite (IH Hs). destruct s as [| b s]; [| reflexivity].
  destruct (Ascii.eqb a c); [discriminate | reflexivity].
Qed.

Lemma rstrip_idempotent (c : ascii) (s : string) :
  Str.rstrip c (Str.rstrip c s) = Str.rstrip c s.
Proof. apply rstrip_fixed, rstrip_no_trailing. Qed.

Lemma rstrip_append (c : ascii) (s : string) :
  Str.rstrip c (s ++ Str.chr c) = Str.rstrip c s.
Proof.
  induction s as [| a s IH]; simpl.
  - now rewrite Ascii.eqb_refl.
  - now rewrite IH.
Qed.

(** X10. Both constructors normalise the base URL: the stored URL never
    ends in a slash, one more trailing slash in the argument changes
    nothing, and a stored URL given back to the constructor is kept as it
    is; the endpoints are the stored URL followed by [/webapi/auth.cgi]
    and [/webapi/entry.cgi]. *)
Theorem init_normalises_base_url (url sid : string) :
  Str.endswith (SynologyAuth.base_url (SynologyAuth.init url)) "/" = false
  /\ SynologyAuth.init (url ++ "/") = SynologyAuth.init url
  /\ SynologyAuth.init (SynologyAuth.base_url (SynologyAuth.init url))
     = SynologyAuth.init url
  /\ Str.endswith (SynologyDNSServer.base_url (SynologyDNSServer.init url sid)) "/"
     = false
  /\ SynologyDNSServer.init (url ++ "/") sid = SynologyDNSServer.init url sid
  /\ SynologyDNSServer.init
       (SynologyDNSServer.base_url (SynologyDNSServer.init url sid)) sid
     = SynologyDNSServer.init url sid
  /\ SynologyAuth.auth_url (SynologyAuth.init url)
     = Str.rstrip "/" url ++ "/webapi/auth.cgi"
  /\ SynologyDNSServer.api_url (SynologyDNSServer.init url sid)
     = Str.rstrip "/" url ++ "/webapi/entry.cgi".
Proof.
  unfold SynologyAuth.init, SynologyDNSServer.init, SynologyAuth.auth_url.
  cbn [SynologyAuth.base_url SynologyDNSServer.base_url
       SynologyDNSServer.api_url].
  change "/"%string with (Str.chr "/").
  rewrite !rstrip_append, !rstrip_idempotent.
  repeat split; apply rstrip_no_trailing.
Qed.

(* ===================================================================== *)
(** ** Dictionaries *)
(* ===================================================================== *)

Lemma dict_set_fresh {A : Type} (k : string) (v : A) (d : list (string * A)) :
  ~ In k (map fst d) -> Py.dict_set k v d = (d ++ [(k, v)])%list.
Proof.
  induction d as [| [k' v'] d IH]; intros H; [reflexivity |].
  simpl in *. destruct (String.eqb_spec k' k) as [-> | Hne].
  - exfalso. apply H. now left.
  - rewrite IH; [reflexivity |]. intros Hin. apply H. now right.
Qed.

(** Merging parameters whose keys are new and distinct appends them. *)
Lemma dict_update_fresh {A : Type} (extra : list (string * A)) :
  forall d,
    NoDup (map fst extra) ->
    (forall k, In k (map fst extra) -> ~ In k (map fst d)) ->
    Py.dict_update d extra = (d ++ extra)%list.
Proof.
  induction extra as [| [k v] extra IH]; intros d Hnd Hfresh.
  - unfold Py.dict_update. simpl. now rewrite app_nil_r.
  - unfold Py.dict_update in *. simpl.
    rewrite dict_set_fresh by (apply Hfresh; now left).
    simpl in Hnd. inversion Hnd as [| ? ? Hk Hnd']; subst.
    rewrite IH.
    + now rewrite <- app_assoc.
    + exact Hnd'.
    + intros k' Hk' Hin. rewrite map_app, in_app_iff in Hin.
      destruct Hin as [Hin | [<- | []]].
      * apply (Hfresh k'); [now right | exact Hin].
      * exact (Hk Hk').
Qed.

Lemma dict_get_app_l {A : Type} (k : string) (d e : list (string * A)) (v : A) :
  Py.dict_get k d = Some v -> Py.dict_get k (d ++ e)%list = Some v.
Proof.
  induction d as [| [k' v'] d IH]; simpl; [discriminate |].
  destruct (String.eqb k' k); auto.
Qed.

(* ===================================================================== *)
(** ** The resource client: requests and failures *)
(* ===================================================================== *)

(** X11. When the caller's parameters have distinct keys, none of them
    [api], [version], [method] or [_sid], [_make_request] sends exactly
    one request: GET or POST as [use_post] says, on the entry point, with
    [api], [version], [method] and the session identifier first and the
    caller's parameters after them, in their order. *)
Theorem make_request_attaches_session
    (net : network) (self : SynologyDNSServer.t) (api version method : string)
    (use_post : bool) (params : list (string * pyval)) :
  NoDup (map fst params) ->
  (forall k, In k (map fst params) -> ~ In k Calls.envelope_keys) ->
  snd (_make_request net self api version method use_post params)
  = [ {| req_verb := if use_post then POST else GET;
         req_url := SynologyDNSServer.api_url self;
         req_params :=
           ([ ("api", PStr api);
              ("version", PStr version);
              ("method", PStr method);
              ("_sid", PStr (SynologyDNSServer.session_id self)) ]
            ++ params)%list |} ].
Proof.
  intros Hnd Hfresh. rewrite make_request_sends_one.
  unfold request_of, envelope.
  rewrite dict_update_fresh; [reflexivity | exact Hnd | exact Hfresh].
Qed.

(** X11 for a call with two parameters. *)
Lemma make_request_attaches_session_witness :
  snd (_make_request Remote.unreachable Remote.dns
         "SYNO.DNSServer.Zone" "1" "get" false
         [ ("zone_name", PStr "example.com");
           ("domain_name", PStr "example.com") ])
  = [ {| req_verb := GET;
         req_url := "https://nas.local:5001/webapi/entry.cgi";
         req_params :=
           [ ("api", PStr "SYNO.DNSServer.Zone");
             ("version", PStr "1");
             ("method", PStr "get");
             ("_sid", PStr "S1");
             ("zone_name", PStr "example.com");
             ("domain_name", PStr "example.com") ] |} ].
Proof.
  apply (make_request_attaches_session Remote.unreachable Remote.dns
           "SYNO.DNSServer.Zone" "1" "get" false
           [ ("zone_name", PStr "example.com");
             ("domain_name", PStr "example.com") ]).
  - repeat constructor; simpl; intuition discriminate.
  - intros k [<- | [<- | []]]; simpl; intuition discriminate.
Defined.

(** X12. A value returned by [_make_request] always comes from a
    response with an HTTP status outside 400..599 whose body parsed to a
    mapping with a truthy [success]; the value is that mapping's [data]
    entry, or the empty mapping when it has none. *)
Theorem make_request_returns_only_success
    (net : network) (self : SynologyDNSServer.t) (api version method : string)
    (use_post : bool) (params : list (string * pyval)) (payload : pyval) :
  fst (_make_request net self api version method use_post params) = Ok payload ->
  exists resp kvs success,
    net (request_of self api version method use_post params) = Ok resp
    /\ ~ (400 <= status_code resp < 600)
    /\ json resp = Ok (PDict kvs)
    /\ Py.dict_get "success" kvs = Some success
    /\ Py.truthy success = true
    /\ payload = match Py.dict_get "data" kvs with
                 | Some d => d
                 | None => PDict []
                 end.
Proof.
  intros H. unfold _make_request in H. cbn [fst] in H.
  destruct (fetch_json net _) as [data | e] eqn:Hf; cbn [bind] in H;
    [| discriminate].
  destruct (Py.get data "success" PNone) as [success | e] eqn:Hs;
    cbn [bind] in H; [| discriminate].
  destruct (Py.truthy success) eqn:Ht; cbn [negb] in H.
  2: { destruct (Py.get data "error" (PDict [])); cbn [bind] in H;
         [| discriminate].
       destruct (Py.get _ "code" _); cbn [bind] in H; discriminate. }
  destruct data as [| | | | | kvs]; try discriminate.
  simpl in Hs, H. injection Hs as Hs. injection H as H.
  unfold fetch_json, raise_for_status in Hf.
  destruct (net _) as [resp | e]; cbn [bind] in Hf; [| discriminate].
  exists resp, kvs, success.
  destruct ((400 <=? status_code resp) && (status_code resp <? 600)) eqn:Hst;
    cbn [bind] in Hf; [discriminate |].
  split; [reflexivity |]. split.
  { intros [Hlo Hhi]. apply Z.leb_le in Hlo. apply Z.ltb_lt in Hhi.
    rewrite Hlo, Hhi in Hst. discriminate. }
  split; [exact Hf |].
  destruct (Py.dict_get "success" kvs) as [x |] eqn:Hx.
  - subst x. repeat split; [exact Ht | now symmetry].
  - subst success. discriminate.
Qed.

(** X12 at a response that carries the value 3. *)
Lemma make_request_returns_only_success_witness :
  exists resp kvs success,
    Remote.always (PDict [("success", PBool true); ("data", PInt 3)])
      (request_of Remote.dns "SYNO.DNSServer.Zone" "1" "list" false [])
    = Ok resp
    /\ ~ (400 <= status_code resp < 600)
    /\ json resp = Ok (PDict kvs)
    /\ Py.dict_get "success" kvs = Some success
    /\ Py.truthy success = true
    /\ PInt 3 = match Py.dict_get "data" kvs with
                | Some d => d
                | None => PDict []
                end.
Proof.
  apply (make_request_returns_only_success
           (Remote.always (PDict [("success", PBool true); ("data", PInt 3)]))
           Remote.dns "SYNO.DNSServer.Zone" "1" "list" false [] (PInt 3)).
  reflexivity.
Defined.



(** X14. The wire protocol of the zone, SOA, configuration and status
    methods: each sends exactly one request for version 1 with the session
    identifier; listing, getting, exporting and the status use GET,
    creating, deleting, setting and importing use POST; the zone name is
    sent bare, and [zone_name] is repeated as [domain_name] where the
    source says the remote side needs both. *)
Theorem resource_methods_wire_protocol
    (net : network) (self : SynologyDNSServer.t)
    (zone_name file_type content : string)
    (primary_ns admin_email : option string)
    (refresh retry expire ttl : Z)
    (serial soa_serial soa_refresh soa_retry soa_expire soa_ttl : option Z) :
  Calls.one_call self GET "SYNO.DNSServer.Zone" "list" []
    (list_zones net self)
  /\ Calls.one_call self GET "SYNO.DNSServer.Zone" "get"
       [ ("zone_name", PStr zone_name); ("domain_name", PStr zone_name) ]
       (get_zone net self zone_name)
  /\ Calls.one_call self POST "SYNO.DNSServer.Zone" "create"
       (create_master_zone_params zone_name serial refresh retry expire ttl)
       (create_master_zone net self zone_name serial refresh retry expire ttl)
  /\ Calls.one_call self POST "SYNO.DNSServer.Zone" "delete"
       [ ("zone_name", PStr zone_name) ]
       (delete_zone net self zone_name)
  /\ Calls.one_call self POST "SYNO.DNSServer.Zone" "set"
       [ ("zone_name", PStr zone_name); ("domain_name", PStr zone_name);
         ("zone_enable", PBool true) ]
       (enable_zone net self zone_name)
  /\ Calls.one_call self POST "SYNO.DNSServer.Zone" "set"
       [ ("zone_name", PStr zone_name); ("domain_name", PStr zone_name);
         ("zone_enable", PBool false) ]
       (disable_zone net self zone_name)
  /\ Calls.one_call self GET "SYNO.DNSServer.Zone.Record" "list"
       [ ("zone_name", PStr zone_name); ("domain_name", PStr zone_name) ]
       (list_records net self zone_name)
  /\ Calls.one_call self GET "SYNO.DNSServer.Zone.SOA" "get"
       [ ("zone_name", PStr zone_name); ("domain_name", PStr zone_name) ]
       (get_soa net self zone_name)
  /\ Calls.one_call self POST "SYNO.DNSServer.Zone.SOA" "set"
       (update_soa_params zone_name primary_ns admin_email
          soa_serial soa_refresh soa_retry soa_expire soa_ttl)
       (update_soa net self zone_name primary_ns admin_email
          soa_serial soa_refresh soa_retry soa_expire soa_ttl)
  /\ Calls.one_call self GET "SYNO.DNSServer.Zone.MasterZoneConf" "get"
       [ ("zone_name", PStr zone_name) ]
       (get_master_zone_conf net self zone_name)
  /\ Calls.one_call self GET "SYNO.DNSServer.Zone.ForwardZoneConf" "get"
       [ ("zone_name", PStr zone_name) ]
       (get_forward_zone_conf net self zone_name)
  /\ Calls.one_call self GET "SYNO.DNSServer.Zone" "export"
       [ ("zone_name", PStr zone_name); ("domain_name", PStr zone_name);
         ("file_type", PStr file_type) ]
       (export_zone net self zone_name file_type)
  /\ Calls.one_call self POST "SYNO.DNSServer.Zone" "import"
       [ ("zone_name", PStr zone_name); ("zone_content", PStr content) ]
       (import_zone net self zone_name content)
  /\ Calls.one_call self GET "SYNO.DNSServer.DaemonStatus" "get" []
       (get_server_status net self).
Proof.
  unfold Calls.one_call.
  repeat split; try reflexivity.
  - unfold create_master_zone. rewrite make_request_sends_one.
    destruct serial; reflexivity.
  - unfold update_soa. rewrite make_request_sends_one.
    unfold update_soa_params.
    destruct primary_ns, admin_email, soa_serial, soa_refresh, soa_retry,
      soa_expire, soa_ttl; reflexivity.
Qed.

(** X15. Optional arguments are sent only when given.  The parameters of
    [update_record], [update_soa] and [create_master_zone] are the
    mandatory ones followed by one entry per argument that is not [None],
    in the order of the source; [update_soa] sends the values bare. *)
Theorem optional_parameters_only_when_given
    (zone_name record_key : string)
    (name record_type rdata primary_ns admin_email : option string)
    (ttl serial soa_refresh soa_retry soa_expire soa_ttl zone_serial : option Z)
    (refresh retry expire zone_ttl : Z) :
  map fst (update_record_params zone_name record_key name record_type rdata ttl)
  = ([ "zone_name"; "domain_name"; "record_key" ]
     ++ Calls.given "rr_owner" name ++ Calls.given "rr_type" record_type
     ++ Calls.given "rr_info" rdata ++ Calls.given "rr_ttl" ttl)%list
  /\ map fst (update_soa_params zone_name primary_ns admin_email
                serial soa_refresh soa_retry soa_expire soa_ttl)
     = ([ "zone_name" ]
        ++ Calls.given "primary_ns" primary_ns
        ++ Calls.given "admin_email" admin_email
        ++ Calls.given "serial" serial
        ++ Calls.given "refresh" soa_refresh
        ++ Calls.given "retry" soa_retry
        ++ Calls.given "expire" soa_expire
        ++ Calls.given "ttl" soa_ttl)%list
  /\ map fst (create_master_zone_params zone_name zone_serial
                refresh retry expire zone_ttl)
     = ([ "zone_name"; "refresh"; "retry"; "expire"; "ttl" ]
        ++ Calls.given "serial" zone_serial)%list
  /\ (let params := update_soa_params zone_name primary_ns admin_email
                      serial soa_refresh soa_retry soa_expire soa_ttl in
      Py.dict_get "zone_name" params = Some (PStr zone_name)
      /\ Py.dict_get "primary_ns" params = option_map PStr primary_ns
      /\ Py.dict_get "admin_email" params = option_map PStr admin_email
      /\ Py.dict_get "serial" params = option_map PInt serial
      /\ Py.dict_get "refresh" params = option_map PInt soa_refresh
      /\ Py.dict_get "retry" params = option_map PInt soa_retry
      /\ Py.dict_get "expire" params = option_map PInt soa_expire
      /\ Py.dict_get "ttl" params = option_map PInt soa_ttl).
Proof.
  split; [| split; [| split]].
  - unfold update_record_params.
    destruct name as [n |], record_type, rdata, ttl;
      try destruct (Str.endswith n "."), (String.eqb n "@");
      reflexivity.
  - unfold update_soa_params.
    destruct primary_ns, admin_email, serial, soa_refresh, soa_retry,
      soa_expire, soa_ttl; reflexivity.
  - destruct zone_serial; reflexivity.
  - unfold update_soa_params.
    destruct primary_ns, admin_email, serial, soa_refresh, soa_retry,
      soa_expire, soa_ttl; repeat split.
Qed.

(* ===================================================================== *)
(** ** Listings *)
(* ===================================================================== *)

Section Listing.
Import Calls.

(** A view function as the two listings use it: defined on mappings,
    raising [AttributeError] on anything else. *)
Variable view : pyval -> result pyval.
Variable pictures : pyval -> pyval -> Prop.

Hypothesis view_dict :
  forall kvs, exists v, view (PDict kvs) = Ok v /\ pictures (PDict kvs) v.
Hypothesis view_other :
  forall x, ~ is_dict x -> exists msg, view x = Raise (Exn AttributeError msg).

Lemma traverse_dicts (xs : list pyval) :
  Forall is_dict xs ->
  exists vs, Py.traverse view xs = Ok vs /\ Forall2 pictures xs vs.
Proof.
  induction 1 as [| x xs [kvs ->] _ [vs [Hvs Hall]]].
  - exists []. split; [reflexivity | constructor].
  - destruct (view_dict kvs) as [v [Hv Hp]].
    exists (v :: vs). simpl. rewrite Hv. cbn [bind]. rewrite Hvs.
    split; [reflexivity | now constructor].
Qed.

Lemma is_dict_dec (x : pyval) : is_dict x \/ ~ is_dict x.
Proof.
  destruct x; try (right; intros [kvs H]; discriminate).
  left. now eexists.
Qed.

Lemma traverse_malformed (xs : list pyval) :
  Exists (fun x => ~ is_dict x) xs ->
  exists msg, Py.traverse view xs = Raise (Exn AttributeError msg).
Proof.
  induction xs as [| x xs IH]; intros H; [inversion H |].
  simpl. destruct (is_dict_dec x) as [[kvs ->] | Hx].
  - destruct (view_dict kvs) as [v [Hv _]]. rewrite Hv. cbn [bind].
    inversion H as [? ? Hd | ? ? Hex]; subst.
    + exfalso. apply Hd. now eexists.
    + destruct (IH Hex) as [msg ->]. now exists msg.
  - destruct (view_other x Hx) as [msg ->]. now exists msg.
Qed.

(** The listing of a payload: one picture per item when every item is a
    mapping, nothing when there is no [items] entry, an exception when an
    item is not a mapping or [items] cannot be walked. *)
Lemma project_items_cases (data : list (string * pyval)) :
  (Py.dict_get "items" data = None ->
   project_items view (PDict data) = Ok (PList []))
  /\ (forall items,
        Py.dict_get "items" data = Some (PList items) ->
        Forall is_dict items ->
        exists views,
          project_items view (PDict data) = Ok (PList views)
          /\ Forall2 pictures items views)
  /\ (forall items,
        Py.dict_get "items" data = Some (PList items) ->
        Exists (fun x => ~ is_dict x) items ->
        exists msg,
          project_items view (PDict data) = Raise (Exn AttributeError msg))
  /\ (forall v,
        Py.dict_get "items" data = Some v ->
        v = PNone \/ (exists b, v = PBool b) \/ (exists n, v = PInt n) ->
        exists msg,
          project_items view (PDict data) = Raise (Exn TypeError msg)).
Proof.
  unfold project_items. simpl. repeat split.
  - intros ->. reflexivity.
  - intros items -> Hall. cbn [bind Py.iter].
    destruct (traverse_dicts items Hall) as [vs [-> Hp]]. now exists vs.
  - intros items -> Hex. cbn [bind Py.iter].
    destruct (traverse_malformed items Hex) as [msg ->]. now exists msg.
  - intros v -> [-> | [[b ->] | [n ->]]]; eexists; reflexivity.
Qed.

End Listing.

Lemma zone_view_pictures (kvs : list (string * pyval)) :
  exists v, zone_view (PDict kvs) = Ok v /\ Calls.zone_view_of (PDict kvs) v.
Proof.
  eexists. split; [reflexivity |]. split; [| split].
  - eexists. split; reflexivity.
  - intros k [<- | [<- | [<- | [<- | [<- | []]]]]]; reflexivity.
  - reflexivity.
Qed.

Lemma record_view_pictures (kvs : list (string * pyval)) :
  exists v, record_view (PDict kvs) = Ok v /\ Calls.record_view_of (PDict kvs) v.
Proof.
  eexists. split; [reflexivity |]. split.
  - eexists. split; reflexivity.
  - repeat split.
Qed.

Lemma zone_view_other (x : pyval) :
  ~ Calls.is_dict x -> exists msg, zone_view x = Raise (Exn AttributeError msg).
Proof.
  intros H. destruct x; try (eexists; reflexivity).
  exfalso. apply H. now eexists.
Qed.

Lemma record_view_other (x : pyval) :
  ~ Calls.is_dict x -> exists msg, record_view x = Raise (Exn AttributeError msg).
Proof.
  intros H. destruct x; try (eexists; reflexivity).
  exfalso. apply H. now eexists.
Qed.

(** X16. [list_zones] on a payload whose items are all mappings returns
    one view per item, in order; each view has exactly the six keys of the
    source and agrees with its item on them, an absent entry reading
    [None] ([False] for [is_readonly]).  Entries the remote side adds are
    dropped. *)
Theorem list_zones_views
    (net : network) (self : SynologyDNSServer.t)
    (data : list (string * pyval)) (items : list pyval) :
  fst (_make_request net self "SYNO.DNSServer.Zone" "1" "list" false [])
  = Ok (PDict data) ->
  Py.dict_get "items" data = Some (PList items) ->
  Forall Calls.is_dict items ->
  exists views,
    fst (list_zones net self) = Ok (PList views)
    /\ length views = length items
    /\ Forall2 Calls.zone_view_of items views.
Proof.
  intros Hd Hi Hall. unfold list_zones. cbn [fst]. unfold zone_api.
  rewrite Hd. cbn [bind].
  destruct (project_items_cases zone_view Calls.zone_view_of
              zone_view_pictures zone_view_other data)
    as [_ [Hok _]].
  destruct (Hok items Hi Hall) as [views [-> Hp]].
  exists views. repeat split; [| exact Hp].
  symmetry. eapply Forall2_length. exact Hp.
Qed.

(** X16 on a payload with one zone that has an entry the view drops and
    lacks [is_readonly]. *)
Lemma list_zones_views_witness :
  exists views,
    fst (list_zones
           (Remote.always
              (PDict [ ("success", PBool true);
                       ("data",
                        PDict [ ("items",
                                 PList [ PDict [ ("zone_name", PStr "example.com");
                                                 ("serial", PInt 7) ] ]) ]) ]))
           Remote.dns)
    = Ok (PList views)
    /\ length views = 1%nat
    /\ Forall2 Calls.zone_view_of
         [ PDict [ ("zone_name", PStr "example.com"); ("serial", PInt 7) ] ]
         views.
Proof.
  apply (list_zones_views
           (Remote.always
              (PDict [ ("success", PBool true);
                       ("data",
                        PDict [ ("items",
                                 PList [ PDict [ ("zone_name", PStr "example.com");
                                                 ("serial", PInt 7) ] ]) ]) ]))
           Remote.dns
           [ ("items",
              PList [ PDict [ ("zone_name", PStr "example.com");
                              ("serial", PInt 7) ] ]) ]
           [ PDict [ ("zone_name", PStr "example.com"); ("serial", PInt 7) ] ]).
  - reflexivity.
  - reflexivity.
  - constructor; [| constructor]. now eexists.
Defined.

(** X17. [list_records] on a payload whose items are all mappings returns
    one view per item, in order; each view has exactly the keys
    [record_key], [name], [type], [rdata], [ttl], [full_record], holding
    the item's [record_key], [rr_owner], [rr_type], [rr_info], [rr_ttl]
    and [full_record], an absent entry reading as the empty text. *)
Theorem list_records_views
    (net : network) (self : SynologyDNSServer.t) (zone_name : string)
    (data : list (string * pyval)) (items : list pyval) :
  fst (_make_request net self "SYNO.DNSServer.Zone.Record" "1" "list" false
         [ ("zone_name", PStr zone_name); ("domain_name", PStr zone_name) ])
  = Ok (PDict data) ->
  Py.dict_get "items" data = Some (PList items) ->
  Forall Calls.is_dict items ->
  exists views,
    fst (list_records net self zone_name) = Ok (PList views)
    /\ length views = length items
    /\ Forall2 Calls.record_view_of items views.
Proof.
  intros Hd Hi Hall. unfold list_records. cbn [fst]. unfold record_api.
  rewrite Hd. cbn [bind].
  destruct (project_items_cases record_view Calls.record_view_of
              record_view_pictures record_view_other data)
    as [_ [Hok _]].
  destruct (Hok items Hi Hall) as [views [-> Hp]].
  exists views. repeat split; [| exact Hp].
  symmetry. eapply Forall2_length. exact Hp.
Qed.

(** X17 on a payload with one record that has no [rr_ttl]. *)
Lemma list_records_views_witness :
  exists views,
    fst (list_records
           (Remote.always
              (PDict [ ("success", PBool true);
                       ("data",
                        PDict [ ("items",
                                 PList [ PDict [ ("rr_owner", PStr "www.example.com.");
                                                 ("rr_type", PStr "A") ] ]) ]) ]))
           Remote.dns "example.com")
    = Ok (PList views)
    /\ length views = 1%nat
    /\ Forall2 Calls.record_view_of
         [ PDict [ ("rr_owner", PStr "www.example.com."); ("rr_type", PStr "A") ] ]
         views.
Proof.
  apply (list_records_views
           (Remote.always
              (PDict [ ("success", PBool true);
                       ("data",
                        PDict [ ("items",
                                 PList [ PDict [ ("rr_owner", PStr "www.example.com.");
                                                 ("rr_type", PStr "A") ] ]) ]) ]))
           Remote.dns "example.com"
           [ ("items",
              PList [ PDict [ ("rr_owner", PStr "www.example.com.");
                              ("rr_type", PStr "A") ] ]) ]
           [ PDict [ ("rr_owner", PStr "www.example.com."); ("rr_type", PStr "A") ] ]).
  - reflexivity.
  - reflexivity.
  - constructor; [| constructor]. now eexists.
Defined.

(** X18. Edge cases of the two listings on a payload that is a mapping:
    without an [items] entry both return the empty list; with an [items]
    list in which some element is not a mapping both raise
    [AttributeError] and return no partial list; with [items] being
    [null], a boolean or a number both raise [TypeError]. *)
Theorem listings_on_malformed_payload
    (net : network) (self : SynologyDNSServer.t) (zone_name : string)
    (zones records : list (string * pyval)) :
  fst (_make_request net self "SYNO.DNSServer.Zone" "1" "list" false [])
  = Ok (PDict zones) ->
  fst (_make_request net self "SYNO.DNSServer.Zone.Record" "1" "list" false
         [ ("zone_name", PStr zone_name); ("domain_name", PStr zone_name) ])
  = Ok (PDict records) ->
  (Py.dict_get "items" zones = None ->
   fst (list_zones net self) = Ok (PList []))
  /\ (Py.dict_get "items" records = None ->
      fst (list_records net self zone_name) = Ok (PList []))
  /\ (forall items,
        Py.dict_get "items" zones = Some (PList items) ->
        Exists (fun x => ~ Calls.is_dict x) items ->
        exists msg, fst (list_zones net self) = Raise (Exn AttributeError msg))
  /\ (forall items,
        Py.dict_get "items" records = Some (PList items) ->
        Exists (fun x => ~ Calls.is_dict x) items ->
        exists msg,
          fst (list_records net self zone_name)
          = Raise (Exn AttributeError msg))
  /\ (forall v,
        Py.dict_get "items" zones = Some v ->
        v = PNone \/ (exists b, v = PBool b) \/ (exists n, v = PInt n) ->
        exists msg, fst (list_zones net self) = Raise (Exn TypeError msg))
  /\ (forall v,
        Py.dict_get "items" records = Some v ->
        v = PNone \/ (exists b, v = PBool b) \/ (exists n, v = PInt n) ->
        exists msg,
          fst (list_records net self zone_name) = Raise (Exn TypeError msg)).
Proof.
  intros Hz Hr. unfold list_zones, list_records. cbn [fst].
  unfold zone_api, record_api. rewrite Hz, Hr. cbn [bind].
  destruct (project_items_cases zone_view Calls.zone_view_of
              zone_view_pictures zone_view_other zones)
    as [Z1 [_ [Z3 Z4]]].
  destruct (project_items_cases record_view Calls.record_view_of
              record_view_pictures record_view_other records)
    as [R1 [_ [R3 R4]]].
  repeat split; assumption.
Qed.

(** X18 on a payload whose only item is a text instead of a mapping. *)
Lemma listings_on_malformed_payload_witness :
  exists msg,
    fst (list_zones
           (Remote.always
              (PDict [ ("success", PBool true);
                       ("data", PDict [ ("items", PList [ PStr "zone" ]) ]) ]))
           Remote.dns)
    = Raise (Exn AttributeError msg).
Proof.
  destruct (listings_on_malformed_payload
              (Remote.always
                 (PDict [ ("success", PBool true);
                          ("data", PDict [ ("items", PList [ PStr "zone" ]) ]) ]))
              Remote.dns "example.com"
              [ ("items", PList [ PStr "zone" ]) ]
              [ ("items", PList [ PStr "zone" ]) ]
              Logic.eq_refl Logic.eq_refl) as [_ [_ [H _]]].
  apply (H [ PStr "zone" ] Logic.eq_refl).
  constructor. intros [kvs C]. discriminate C.
Defined.

(* ===================================================================== *)
(** ** Records: listing, deleting, owners *)
(* ===================================================================== *)

(** X19. Listing then deleting.  For a listed record whose remote
    [full_record] is its owner, ttl, type and data joined by tabs and whose
    ttl is not empty, the view returned by [list_records] gives back those
    four texts under [name], [ttl], [type] and [rdata], and
    [delete_record] called with them builds an item whose [full_record] is
    the remote one, character for character. *)
Theorem listed_record_deletes_by_its_line
    (zone_name owner ttl type data : string) (kvs : list (string * pyval)) :
  Py.dict_get "rr_owner" kvs = Some (PStr owner) ->
  Py.dict_get "rr_ttl" kvs = Some (PStr ttl) ->
  Py.dict_get "rr_type" kvs = Some (PStr type) ->
  Py.dict_get "rr_info" kvs = Some (PStr data) ->
  Py.dict_get "full_record" kvs
  = Some (PStr (owner ++ Str.tab ++ ttl ++ Str.tab ++ type ++ Str.tab ++ data)) ->
  ttl <> EmptyString ->
  exists view item,
    record_view (PDict kvs) = Ok (PDict view)
    /\ Py.dict_get "name" view = Some (PStr owner)
    /\ Py.dict_get "ttl" view = Some (PStr ttl)
    /\ Py.dict_get "type" view = Some (PStr type)
    /\ Py.dict_get "rdata" view = Some (PStr data)
    /\ items zone_name owner type data (Some ttl) = PList [PDict item]
    /\ Py.dict_get "full_record" item = Py.dict_get "full_record" view
    /\ Py.dict_get "full_record" item = Py.dict_get "full_record" kvs.
Proof.
  intros Ho Ht Hy Hd Hf Hne.
  destruct (String.eqb ttl EmptyString) eqn:Ettl;
    [apply String.eqb_eq in Ettl; contradiction |].
  unfold record_view, items, full_record, Py.or_str. cbn [Py.get bind].
  rewrite Ho, Ht, Hy, Hd, Hf, Ettl.
  eexists. eexists. split; [reflexivity |].
  do 4 (split; [reflexivity |]). split; [reflexivity |].
  split; reflexivity.
Qed.

(** X19 on the record of the document's example. *)
Lemma listed_record_deletes_by_its_line_witness :
  exists view item,
    record_view
      (PDict [ ("rr_owner", PStr "www.example.com."); ("rr_ttl", PStr "300");
               ("rr_type", PStr "A"); ("rr_info", PStr "192.168.1.1");
               ("full_record",
                PStr ("www.example.com." ++ Str.tab ++ "300" ++ Str.tab
                      ++ "A" ++ Str.tab ++ "192.168.1.1")) ])
    = Ok (PDict view)
    /\ Py.dict_get "name" view = Some (PStr "www.example.com.")
    /\ Py.dict_get "ttl" view = Some (PStr "300")
    /\ Py.dict_get "type" view = Some (PStr "A")
    /\ Py.dict_get "rdata" view = Some (PStr "192.168.1.1")
    /\ items "example.com" "www.example.com." "A" "192.168.1.1" (Some "300")
       = PList [PDict item]
    /\ Py.dict_get "full_record" item = Py.dict_get "full_record" view
    /\ Py.dict_get "full_record" item
       = Py.dict_get "full_record"
           [ ("rr_owner", PStr "www.example.com."); ("rr_ttl", PStr "300");
             ("rr_type", PStr "A"); ("rr_info", PStr "192.168.1.1");
             ("full_record",
              PStr ("www.example.com." ++ Str.tab ++ "300" ++ Str.tab
                    ++ "A" ++ Str.tab ++ "192.168.1.1")) ].
Proof.
  apply (listed_record_deletes_by_its_line
           "example.com" "www.example.com." "300" "A" "192.168.1.1"
           [ ("rr_owner", PStr "www.example.com."); ("rr_ttl", PStr "300");
             ("rr_type", PStr "A"); ("rr_info", PStr "192.168.1.1");
             ("full_record",
              PStr ("www.example.com." ++ Str.tab ++ "300" ++ Str.tab
                    ++ "A" ++ Str.tab ++ "192.168.1.1")) ]);
    try reflexivity.
  discriminate.
Defined.

(** X20. The [full_record] line can be taken apart again: when owner,
    type, data and the ttl in effect contain no tab, splitting the line at
    tabs gives exactly owner, ttl, type, data, the ttl being 86400 when
    [rr_ttl] is [None] or empty. *)
Theorem full_record_splits
    (rr_owner rr_type rr_info : string) (rr_ttl : option string) :
  Str.contains "009" rr_owner = false ->
  Str.contains "009" rr_type = false ->
  Str.contains "009" rr_info = false ->
  Str.contains "009" (Py.or_str rr_ttl "86400") = false ->
  Str.split "009" (full_record rr_owner rr_type rr_info rr_ttl)
  = [ rr_owner; Py.or_str rr_ttl "86400"; rr_type; rr_info ].
Proof.
  intros Ho Hy Hd Ht.
  exact (raw_line_split rr_owner (Py.or_str rr_ttl "86400") rr_type rr_info
           Ho Ht Hy Hd).
Qed.

(** X20 with the ttl omitted. *)
Lemma full_record_splits_witness :
  Str.split "009" (full_record "www.example.com." "A" "192.168.1.1" None)
  = [ "www.example.com."; "86400"; "A"; "192.168.1.1" ].
Proof.
  apply (full_record_splits "www.example.com." "A" "192.168.1.1" None);
    reflexivity.
Defined.

Lemma endswith_app_r (a b suffix : string) :
  Str.endswith b suffix = true -> Str.endswith (a ++ b) suffix = true.
Proof.
  intros H. induction a as [| x a IH]; simpl; [exact H |].
  rewrite IH. apply orb_true_r.
Qed.

(** X21. The owner [create_record] and [update_record] send is always
    dot-terminated: whatever the name and the zone, the text between the
    quotes ends in a dot. *)
Theorem owner_is_dot_terminated
    (net : network) (self : SynologyDNSServer.t)
    (zone_name name record_type rdata record_key : string) (ttl : Z)
    (new_type new_rdata : option string) (new_ttl : option Z) :
  exists owner,
    Str.endswith owner "." = true
    /\ sent_param "rr_owner"
         (create_record net self zone_name name record_type rdata ttl)
       = Some (PStr (Str.dquote ++ owner ++ Str.dquote))
    /\ sent_param "rr_owner"
         (update_record net self zone_name record_key (Some name)
                        new_type new_rdata new_ttl)
       = Some (PStr (Str.dquote ++ owner ++ Str.dquote)).
Proof.
  exists (Spec.owner name zone_name). split; [| split].
  - unfold Spec.owner. destruct (Str.endswith name ".") eqn:E; [exact E |].
    destruct (String.eqb name "@").
    + now apply endswith_app_r.
    + rewrite <- !append_assoc. now apply endswith_app_r.
  - unfold sent_param. rewrite create_record_request. reflexivity.
  - unfold sent_param. rewrite update_record_request.
    change (Str.dquote ++ Spec.owner name zone_name ++ Str.dquote)%string
      with (Str.quoted (Spec.owner name zone_name)).
    rewrite <- owner_rule_quoted. unfold update_record_params.
    destruct (Str.endswith name "."), (String.eqb name "@"),
      new_type, new_rdata, new_ttl; reflexivity.
Qed.

(* ===================================================================== *)
(** ** Forward zones *)
(* ===================================================================== *)

Lemma split_join (c : ascii) (fs : list string) :
  fs <> [] ->
  Forall (fun f => Str.contains c f = false) fs ->
  Str.split c (Str.join (Str.chr c) fs) = fs.
Proof.
  induction fs as [| f fs IH]; intros Hne Hall; [congruence |].
  inversion Hall as [| ? ? Hf Hrest]; subst.
  destruct fs as [| g fs].
  - simpl. now apply split_no_sep.
  - change (Str.join (Str.chr c) (f :: g :: fs))
      with (f ++ Str.chr c ++ Str.join (Str.chr c) (g :: fs))%string.
    rewrite (split_append c f _ Hf). f_equal.
    apply IH; [discriminate | exact Hrest].
Qed.

Lemma join_items_texts (fs : list string) (i : nat) :
  Py.join_items i (map PStr fs) = Ok fs.
Proof.
  revert i. induction fs as [| f fs IH]; intros i; [reflexivity |].
  simpl. now rewrite IH.
Qed.

Lemma join_items_other (xs : list pyval) :
  Exists (fun x => ~ Calls.is_str x) xs ->
  forall i, exists msg, Py.join_items i xs = Raise (Exn TypeError msg).
Proof.
  induction xs as [| x xs IH]; intros H i; [inversion H |].
  destruct x as [| b | n | s | ys | kvs]; try (eexists; reflexivity).
  inversion H as [? ? Hx | ? ? Hex]; subst.
  - exfalso. apply Hx. now eexists.
  - destruct (IH Hex (S i)) as [msg Hmsg]. exists msg. simpl. now rewrite Hmsg.
Qed.

(** X22. [create_forward_zone] sends a list of forwarders as one text,
    joined by commas, next to [zone_type] = [forward]; for a non-empty
    list of addresses without commas, splitting that text at commas gives
    the list back.  The empty list is sent as the empty text, and a text
    given instead of a list is sent as it is. *)
Theorem forwarders_round_trip
    (net : network) (self : SynologyDNSServer.t) (zone_name one : string)
    (forwarders : list string) :
  forwarders <> [] ->
  Forall (fun f => Str.contains "," f = false) forwarders ->
  create_forward_zone net self zone_name (PList (map PStr forwarders))
  = _make_request net self "SYNO.DNSServer.Zone" "1" "create" true
      [ ("zone_name", PStr zone_name); ("zone_type", PStr "forward");
        ("forwarders", PStr (Str.join "," forwarders)) ]
  /\ Str.split "," (Str.join "," forwarders) = forwarders
  /\ sent_param "forwarders" (create_forward_zone net self zone_name (PList []))
     = Some (PStr EmptyString)
  /\ sent_param "forwarders" (create_forward_zone net self zone_name (PStr one))
     = Some (PStr one).
Proof.
  intros Hne Hall. split; [| split; [| split; reflexivity]].
  - unfold create_forward_zone, forwarders_param, Py.join.
    now rewrite join_items_texts.
  - exact (split_join "," forwarders Hne Hall).
Qed.

(** X22 with two forwarders. *)
Lemma forwarders_round_trip_witness :
  create_forward_zone Remote.unreachable Remote.dns "example.com"
    (PList (map PStr ["8.8.8.8"; "1.1.1.1"]))
  = _make_request Remote.unreachable Remote.dns
      "SYNO.DNSServer.Zone" "1" "create" true
      [ ("zone_name", PStr "example.com"); ("zone_type", PStr "forward");
        ("forwarders", PStr (Str.join "," ["8.8.8.8"; "1.1.1.1"])) ]
  /\ Str.split "," (Str.join "," ["8.8.8.8"; "1.1.1.1"])
     = ["8.8.8.8"; "1.1.1.1"]
  /\ sent_param "forwarders"
       (create_forward_zone Remote.unreachable Remote.dns "example.com" (PList []))
     = Some (PStr EmptyString)
  /\ sent_param "forwarders"
       (create_forward_zone Remote.unreachable Remote.dns "example.com"
          (PStr "8.8.8.8"))
     = Some (PStr "8.8.8.8").
Proof.
  apply (forwarders_round_trip Remote.unreachable Remote.dns
           "example.com" "8.8.8.8" ["8.8.8.8"; "1.1.1.1"]).
  - discriminate.
  - repeat constructor.
Defined.

(** X23. A list of forwarders with an element that is not a text makes
    [create_forward_zone] raise [TypeError] while the arguments are being
    built: no request is sent. *)
Theorem create_forward_zone_rejects_non_text
    (net : network) (self : SynologyDNSServer.t) (zone_name : string)
    (forwarders : list pyval) :
  Exists (fun x => ~ Calls.is_str x) forwarders ->
  exists msg,
    create_forward_zone net self zone_name (PList forwarders)
    = (Raise (Exn TypeError msg), []).
Proof.
  intros H. destruct (join_items_other forwarders H 0) as [msg Hmsg].
  exists msg. unfold create_forward_zone, forwarders_param, Py.join.
  now rewrite Hmsg.
Qed.

(** X23 with a number after an address. *)
Lemma create_forward_zone_rejects_non_text_witness :
  exists msg,
    create_forward_zone (Remote.always (PDict [("success", PBool true)]))
      Remote.dns "example.com" (PList [PStr "8.8.8.8"; PInt 1])
    = (Raise (Exn TypeError msg), []).
Proof.
  apply (create_forward_zone_rejects_non_text
           (Remote.always (PDict [("success", PBool true)]))
           Remote.dns "example.com" [PStr "8.8.8.8"; PInt 1]).
  apply Exists_cons_tl. apply Exists_cons_hd.
  intros [s C]. discriminate C.
Defined.

(** What [_make_request] raises on a failure response that has an error
    mapping with a code. *)
Lemma make_request_error_text
    (net : network) (self : SynologyDNSServer.t) (api version method : string)
    (use_post : bool) (params : list (string * pyval))
    (data success error code : pyval) :
  fetch_json net (request_of self api version method use_post params) = Ok data ->
  Py.get data "success" PNone = Ok success ->
  Py.truthy success = false ->
  Py.get data "error" (PDict []) = Ok error ->
  Py.get error "code" (PStr "unknown") = Ok code ->
  fst (_make_request net self api version method use_post params)
  = Raise (Exn Exception
             ("DNS Server API error: " ++ Py.str code
              ++ " - " ++ Py.str error)).
Proof.
  intros Hf Hs Ht He Hc. unfold _make_request. cbn [fst].
  rewrite Hf. cbn [bind]. rewrite Hs. cbn [bind]. rewrite Ht. cbn [negb].
  rewrite He. cbn [bind]. rewrite Hc. reflexivity.
Qed.

(** X24. The exception [_make_request] raises tells the remote codes
    apart: two calls whose responses report failure with different
    integer codes both raise an [Exception], and the two exceptions have
    different texts, whatever the calls and the rest of the responses
    are. *)
Theorem api_error_text_carries_code
    (net1 net2 : network) (self1 self2 : SynologyDNSServer.t)
    (api1 version1 method1 api2 version2 method2 : string)
    (use_post1 use_post2 : bool) (params1 params2 : list (string * pyval))
    (data1 success1 error1 data2 success2 error2 : pyval) (code1 code2 : Z) :
  fetch_json net1 (request_of self1 api1 version1 method1 use_post1 params1)
  = Ok data1 ->
  Py.get data1 "success" PNone = Ok success1 ->
  Py.truthy success1 = false ->
  Py.get data1 "error" (PDict []) = Ok error1 ->
  Py.get error1 "code" (PStr "unknown") = Ok (PInt code1) ->
  fetch_json net2 (request_of self2 api2 version2 method2 use_post2 params2)
  = Ok data2 ->
  Py.get data2 "success" PNone = Ok success2 ->
  Py.truthy success2 = false ->
  Py.get data2 "error" (PDict []) = Ok error2 ->
  Py.get error2 "code" (PStr "unknown") = Ok (PInt code2) ->
  code1 <> code2 ->
  exists text1 text2,
    fst (_make_request net1 self1 api1 version1 method1 use_post1 params1)
    = Raise (Exn Exception text1)
    /\ fst (_make_request net2 self2 api2 version2 method2 use_post2 params2)
       = Raise (Exn Exception text2)
    /\ text1 <> text2.
Proof.
  intros Hf1 Hs1 Ht1 He1 Hc1 Hf2 Hs2 Ht2 He2 Hc2 Hne.
  eexists. eexists. split; [| split].
  - exact (make_request_error_text _ _ _ _ _ _ _ _ _ _ _ Hf1 Hs1 Ht1 He1 Hc1).
  - exact (make_request_error_text _ _ _ _ _ _ _ _ _ _ _ Hf2 Hs2 Ht2 He2 Hc2).
  - intros H. apply Hne.
    exact (api_error_text_determines_code code1 code2 error1 error2 H).
Qed.

(** X24 for two listings answered with the codes 400 and 4000. *)
Lemma api_error_text_carries_code_witness :
  exists text1 text2,
    fst (_make_request (Remote.always (Remote.failure 400)) Remote.dns
           "SYNO.DNSServer.Zone" "1" "list" false [])
    = Raise (Exn Exception text1)
    /\ fst (_make_request (Remote.always (Remote.failure 4000)) Remote.dns
              "SYNO.DNSServer.Zone" "1" "list" false [])
       = Raise (Exn Exception text2)
    /\ text1 <> text2.
Proof.
  apply (api_error_text_carries_code
           (Remote.always (Remote.failure 400))
           (Remote.always (Remote.failure 4000))
           Remote.dns Remote.dns
           "SYNO.DNSServer.Zone" "1" "list" "SYNO.DNSServer.Zone" "1" "list"
           false false [] []
           (Remote.failure 400) (PBool false) (PDict [("code", PInt 400)])
           (Remote.failure 4000) (PBool false) (PDict [("code", PInt 4000)])
           400 4000); try reflexivity.
  discriminate.
Defined.

(* ===================================================================== *)
(** ** The JSON text of a deletion loses nothing *)
(* ===================================================================== *)

Lemma read_escaped_char (c : ascii) (rest : string) :
  Json.read_string (Json.escape_char c ++ rest)
  = Json.cons_char c (Json.read_string rest).
Proof.
  destruct c as [[] [] [] [] [] [] [] []]; reflexivity.
Qed.

(** Reading undoes writing: after the opening quote, the reader gives back
    the text and stops right after the closing quote. *)
Lemma read_escaped (s rest : string) :
  Json.read_string
    (Str.flat_map_chars Json.escape_char s ++ Str.dquote ++ rest)
  = Some (s, rest).
Proof.
  induction s as [| a s IH]; [reflexivity |].
  change (Str.flat_map_chars Json.escape_char (String a s))
    with (Json.escape_char a ++ Str.flat_map_chars Json.escape_char s)%string.
  rewrite append_assoc, read_escaped_char, IH. reflexivity.
Qed.

Lemma escaped_inj (s1 s2 r1 r2 : string) :
  (Str.flat_map_chars Json.escape_char s1 ++ Str.dquote ++ r1
   = Str.flat_map_chars Json.escape_char s2 ++ Str.dquote ++ r2)%string ->
  s1 = s2 /\ r1 = r2.
Proof.
  intros H. pose proof (read_escaped s1 r1) as E.
  rewrite H, read_escaped in E. now injection E as <- <-.
Qed.

Lemma append_inv_head (p a b : string) : (p ++ a = p ++ b -> a = b)%string.
Proof.
  induction p as [| x p IH]; simpl; intros H; [exact H |].
  injection H as H. now apply IH.
Qed.

(** The JSON text of the items, field by field. *)
Lemma delete_record_json_fields
    (zone_name rr_owner rr_type rr_info : string) (rr_ttl : option string) :
  let E := Str.flat_map_chars Json.escape_char in
  Json.dumps (items zone_name rr_owner rr_type rr_info rr_ttl)
  = ("[{" ++ json_field_open "zone_name" ++ E zone_name ++ Str.dquote
     ++ ", " ++ json_field_open "domain_name" ++ E zone_name ++ Str.dquote
     ++ ", " ++ json_field_open "rr_owner" ++ E rr_owner ++ Str.dquote
     ++ ", " ++ json_field_open "rr_type" ++ E rr_type ++ Str.dquote
     ++ ", " ++ json_field_open "rr_ttl"
     ++ E (Py.or_str rr_ttl "86400") ++ Str.dquote
     ++ ", " ++ json_field_open "rr_info" ++ E rr_info ++ Str.dquote
     ++ ", " ++ json_field_open "full_record"
     ++ E (full_record rr_owner rr_type rr_info rr_ttl) ++ Str.dquote
     ++ "}]")%string.
Proof.
  intros E. rewrite delete_record_json.
  unfold json_field, json_field_open, Str.quoted, Str.join.
  fold E. rewrite !append_assoc. reflexivity.
Qed.

(** X25. For field texts over the code points 0 to 255 (the texts of
    this embedding), the [items] text [delete_record] sends identifies the
    record: two calls that differ in the zone, the owner, the type, the
    data or the ttl in effect never send the same text, also when the
    fields contain quotes, backslashes, tabs, commas or control
    characters.  Nothing is said about code points above 255, where
    [json.dumps] writes a character outside the basic plane and its pair
    of surrogates alike. *)
Theorem delete_items_text_identifies_record
    (zone1 owner1 type1 info1 zone2 owner2 type2 info2 : string)
    (ttl1 ttl2 : option string) :
  (zone1, owner1, type1, info1, Py.or_str ttl1 "86400")
  <> (zone2, owner2, type2, info2, Py.or_str ttl2 "86400") ->
  Json.dumps (items zone1 owner1 type1 info1 ttl1)
  <> Json.dumps (items zone2 owner2 type2 info2 ttl2).
Proof.
  intros Hne H. apply Hne. clear Hne.
  rewrite !delete_record_json_fields in H. cbv zeta in H.
  apply (append_inv_head "[{") in H.
  apply (append_inv_head (json_field_open "zone_name")) in H.
  apply escaped_inj in H as [Hz H].
  apply (append_inv_head ", ") in H.
  apply (append_inv_head (json_field_open "domain_name")) in H.
  apply escaped_inj in H as [_ H].
  apply (append_inv_head ", ") in H.
  apply (append_inv_head (json_field_open "rr_owner")) in H.
  apply escaped_inj in H as [Ho H].
  apply (append_inv_head ", ") in H.
  apply (append_inv_head (json_field_open "rr_type")) in H.
  apply escaped_inj in H as [Hy H].
  apply (append_inv_head ", ") in H.
  apply (append_inv_head (json_field_open "rr_ttl")) in H.
  apply escaped_inj in H as [Ht H].
  apply (append_inv_head ", ") in H.
  apply (append_inv_head (json_field_open "rr_info")) in H.
  apply escaped_inj in H as [Hd _].
  now rewrite Hz, Ho, Hy, Ht, Hd.
Qed.

(** X25 for two records that differ in a single quote character. *)
Lemma delete_items_text_identifies_record_witness :
  Json.dumps (items "example.com" "txt.example.com." "TXT" "v=1" None)
  <> Json.dumps (items "example.com" "txt.example.com." "TXT"
                   ("v=1" ++ Str.dquote) None).
Proof.
  apply (delete_items_text_identifies_record
           "example.com" "txt.example.com." "TXT" "v=1"
           "example.com" "txt.example.com." "TXT" ("v=1" ++ Str.dquote)
           None None).
  discriminate.
Defined.

(* ===================================================================== *)
(** ** Logging in again *)
(* ===================================================================== *)

Section Relogin.
Import SynologyAuth Negotiation.

Variable net : network.
Variables a b : SynologyAuth.t.
Variables username password session_type : string.
Hypothesis same_url : base_url a = base_url b.

Lemma login_request_same_url version :
  login_request a username password session_type version
  = login_request b username password session_type version.
Proof. unfold login_request, auth_url. now rewrite same_url. Qed.

(** The two attempts end the same way; when they return, they return the
    same response, and either both keep their own cached session or both
    cache the same new one. *)
Lemma login_try_same_url version :
  match login_try net a username password session_type version,
        login_try net b username password session_type version with
  | Raise e1, Raise e2 => e1 = e2
  | Ok (Next l1), Ok (Next l2) => l1 = l2
  | Ok (Return (r1, s1)), Ok (Return (r2, s2)) =>
      r1 = r2 /\ ((s1 = a /\ s2 = b) \/ s1 = s2)
  | _, _ => False
  end.
Proof.
  unfold login_try. rewrite login_request_same_url.
  destruct (fetch_json net _) as [result | e]; cbn [bind]; [| reflexivity].
  destruct (Py.get result "success" PNone) as [success | e]; cbn [bind];
    [| reflexivity].
  destruct (Py.truthy success).
  - destruct (Py.getitem result "data") as [data | e]; cbn [bind];
      [| reflexivity].
    destruct (Py.getitem data "sid") as [sid | e]; cbn [bind];
      [| reflexivity].
    split; [reflexivity |]. right. now rewrite same_url.
  - destruct (Py.get result "error" (PDict [])) as [error | e]; cbn [bind];
      [| reflexivity].
    destruct (Py.get error "code" (PStr "unknown")) as [code | e]; cbn [bind];
      [| reflexivity].
    destruct (Py.in_ code login_auth_errors); [| reflexivity].
    split; [reflexivity |]. now left.
Qed.

Lemma login_loop_same_url versions :
  forall sent,
    let ra := login_loop net a username password session_type versions sent in
    let rb := login_loop net b username password session_type versions sent in
    fst (fst ra) = fst (fst rb)
    /\ snd ra = snd rb
    /\ ((snd (fst ra) = a /\ snd (fst rb) = b) \/ snd (fst ra) = snd (fst rb)).
Proof.
  induction versions as [| v vs IH]; intros sent; cbv zeta.
  - simpl. repeat split. now left.
  - simpl. rewrite <- login_request_same_url.
    pose proof (login_try_same_url v) as H.
    destruct (login_try net a username password session_type v)
      as [[[r1 s1] | l1 | l1] | e1];
      destruct (login_try net b username password session_type v)
        as [[[r2 s2] | l2 | l2] | e2];
      try contradiction; try apply IH.
    destruct H as [-> Hs]. simpl. repeat split. exact Hs.
Qed.

End Relogin.

(** X26. A login does not look at the session the negotiator holds: run
    on two negotiators with the same base URL, it sends the same requests
    and returns the same response, and either both keep what they had or
    both end with the same new session.  As every request of a login is
    a [login] request, an earlier session is overwritten without being
    logged out. *)
Theorem login_ignores_cached_session
    (net : network) (self : SynologyAuth.t)
    (username password session_type old_type : string) (old_sid : pyval) :
  let other :=
    {| SynologyAuth.base_url := SynologyAuth.base_url self;
       SynologyAuth.current_session_id := old_sid;
       SynologyAuth.current_session_type := old_type |} in
  let ra := SynologyAuth.login_with_session net other
              username password session_type in
  let rb := SynologyAuth.login_with_session net self
              username password session_type in
  fst (fst ra) = fst (fst rb)
  /\ snd ra = snd rb
  /\ ((snd (fst ra) = other /\ snd (fst rb) = self)
      \/ snd (fst ra) = snd (fst rb)).
Proof.
  cbv zeta. unfold SynologyAuth.login_with_session.
  exact (login_loop_same_url net
           {| SynologyAuth.base_url := SynologyAuth.base_url self;
              SynologyAuth.current_session_id := old_sid;
              SynologyAuth.current_session_type := old_type |}
           self username password session_type
           Logic.eq_refl SynologyAuth.api_versions []).
Qed.
